(** * Scheme-switching serialization example (scheme-switching-serial.cpp)

    A shallow embedding of the three roles of the example program
    ([serverSetupAndWrite], [clientProcess], [serverVerification]) and of
    [main], followed by the properties of the key-and-ciphertext handoff
    protocol they implement.

    The program is written against the crypto engine (contexts, keys,
    ciphertexts, [Serial]) whose sources are not part of the example.  The
    engine's objects are represented symbolically, its effects on the file
    system, on the process-wide registries and on the console are recorded
    in an explicit world, and whatever the engine decides on its own (key
    material, the content of the bootstrapping key map, whether a file can
    be written) is read from an environment the theorems quantify over. *)

From stdpp Require Import base strings gmap list pretty sorting.
From Stdlib Require Import ZArith QArith.

Local Open Scope Z_scope.
Local Open Scope string_scope.
Local Open Scope list_scope.

(** ** Enumerations of the engine used by the program

    Modelled from the spec: the enumerations are declared in the engine's
    headers; the program only names [HEStd_NotSet], [TOY], [FLEXIBLEAUTO]
    and the six capabilities it enables. *)

Inductive SecurityLevel :=
  | HEStd_128_classic | HEStd_192_classic | HEStd_256_classic | HEStd_NotSet.

Inductive BINFHE_PARAMSET := TOY | MEDIUM | STD128 | STD192 | STD256.

Inductive ScalingTechnique :=
  | FIXEDMANUAL | FIXEDAUTO | FLEXIBLEAUTO | FLEXIBLEAUTOEXT.

Inductive PKESchemeFeature :=
  | PKE | KEYSWITCH | PRE | LEVELEDSHE | ADVANCEDSHE | MULTIPARTY | FHE
  | SCHEMESWITCH.

(** ** Engine objects *)

(** [CCParams<CryptoContextCKKSRNS>]: a field is [None] until its setter is
    called (the engine's default applies). *)
Record CCParams := mkCCParams {
  multiplicativeDepth : option Z;
  securityLevel : option SecurityLevel;
  ringDim : option Z;
  batchSize : option Z;
  scalingModSize : option Z;
  firstModSize : option Z;
  scalingTechnique : option ScalingTechnique
}.

Definition CCParams_default : CCParams :=
  mkCCParams None None None None None None None.

Definition SetMultiplicativeDepth (d : Z) (p : CCParams) : CCParams :=
  mkCCParams (Some d) (securityLevel p) (ringDim p) (batchSize p)
    (scalingModSize p) (firstModSize p) (scalingTechnique p).
Definition SetSecurityLevel (sl : SecurityLevel) (p : CCParams) : CCParams :=
  mkCCParams (multiplicativeDepth p) (Some sl) (ringDim p) (batchSize p)
    (scalingModSize p) (firstModSize p) (scalingTechnique p).
Definition SetRingDim (n : Z) (p : CCParams) : CCParams :=
  mkCCParams (multiplicativeDepth p) (securityLevel p) (Some n) (batchSize p)
    (scalingModSize p) (firstModSize p) (scalingTechnique p).
Definition SetBatchSize (n : Z) (p : CCParams) : CCParams :=
  mkCCParams (multiplicativeDepth p) (securityLevel p) (ringDim p) (Some n)
    (scalingModSize p) (firstModSize p) (scalingTechnique p).
Definition SetScalingModSize (n : Z) (p : CCParams) : CCParams :=
  mkCCParams (multiplicativeDepth p) (securityLevel p) (ringDim p)
    (batchSize p) (Some n) (firstModSize p) (scalingTechnique p).
Definition SetFirstModSize (n : Z) (p : CCParams) : CCParams :=
  mkCCParams (multiplicativeDepth p) (securityLevel p) (ringDim p)
    (batchSize p) (scalingModSize p) (Some n) (scalingTechnique p).
Definition SetScalingTechnique (t : ScalingTechnique) (p : CCParams)
  : CCParams :=
  mkCCParams (multiplicativeDepth p) (securityLevel p) (ringDim p)
    (batchSize p) (scalingModSize p) (firstModSize p) (Some t).

(** Key material is opaque to the program: a token chosen by the engine. *)
Definition KeyMaterial := N.

Inductive PublicKey := PK (k : KeyMaterial).
Inductive PrivateKey := SK (k : KeyMaterial).
Record KeyPair := mkKeyPair { publicKey : PublicKey; secretKey : PrivateKey }.

Inductive LWEPrivateKey := LWESK (k : KeyMaterial).
Inductive RingGSWACCKey := ACCKey (k : KeyMaterial).
Inductive LWESwitchingKey := LWESwk (k : KeyMaterial).
Inductive EvalKey := EvalKeyOf (k : KeyMaterial) (index : Z).

(** [RingGSWBTKey]: the pair [{BSkey, KSkey}] (refresh key, switching key). *)
Record RingGSWBTKey := mkBTKey {
  BSkey : RingGSWACCKey;
  KSkey : LWESwitchingKey
}.

(** A decoded vector; its length is the logical length. The values of
    [std::complex<double>] slots are represented by exact rationals. *)
Definition Plaintext := list Q.

(** A ciphertext is either the encryption of a slot vector under a public
    key, or the ciphertext-shaped key that switches from the bit scheme
    back to the approximate-number scheme. *)
Inductive Ciphertext :=
  | Enc (k : KeyMaterial) (slots : list Q)
  | SwkFC (k : KeyMaterial) (lwe : KeyMaterial).

(** The secondary (bit-scheme) context: its parameters, among them the
    decomposition base it works with, its default bootstrapping key and
    its map from decomposition base to key. *)
Record BinFHEContext := mkBinCC {
  bin_paramset : BINFHE_PARAMSET;
  bin_arbFunc : bool;
  bin_logQ : Z;
  bin_beta : Z;
  bin_baseG : N;
  bin_BTKey : option RingGSWBTKey;
  bin_BTKeyMap : gmap N RingGSWBTKey
}.

(** The arguments of [EvalSchemeSwitchingSetup], in call order. *)
Record SchSwchSetup := mkSchSwchSetup {
  ss_sl : SecurityLevel;
  ss_slBin : BINFHE_PARAMSET;
  ss_arbFunc : bool;
  ss_logQ : Z;
  ss_arg5 : bool;
  ss_numSlots : Z;
  ss_numValues : Z;
  ss_arg8 : bool;
  ss_oneHot : bool;
  ss_arg10 : bool;
  ss_rest : list Z
}.

(** The primary context. The last three fields are the attachments that a
    deserialized context does not carry. *)
Record CryptoContext := mkCC {
  cc_params : CCParams;
  cc_enabled : list PKESchemeFeature;
  cc_schswch : option SchSwchSetup;
  cc_binCC : option BinFHEContext;
  cc_swkFC : option Ciphertext;
  cc_precompute : option (Z * Z * Q * bool)
}.

(** ** Blobs

    Every kind of object [Serial] can write. A private key is one of them:
    nothing in the types keeps the program from packing it. *)
Inductive Artifact :=
  | ACryptoContext (cc : CryptoContext)
  | APublicKey (pk : PublicKey)
  | APrivateKey (sk : PrivateKey)
  | AEvalMultKeys (ks : list EvalKey)
  | AEvalAutomorphismKeys (ks : list EvalKey)
  | ACiphertext (c : Ciphertext)
  | ABinFHEContext (b : BinFHEContext)
  | ARingGSWACCKey (k : RingGSWACCKey)
  | ALWESwitchingKey (k : LWESwitchingKey).

(** A file is empty (opened for writing, nothing written yet) or holds one
    self-describing serialized artifact. *)
Inductive Blob := BlobEmpty | BlobOf (a : Artifact).

Definition asCryptoContext (a : Artifact) : option CryptoContext :=
  match a with ACryptoContext cc => Some cc | _ => None end.
Definition asPublicKey (a : Artifact) : option PublicKey :=
  match a with APublicKey pk => Some pk | _ => None end.
Definition asEvalMultKeys (a : Artifact) : option (list EvalKey) :=
  match a with AEvalMultKeys ks => Some ks | _ => None end.
Definition asEvalAutomorphismKeys (a : Artifact) : option (list EvalKey) :=
  match a with AEvalAutomorphismKeys ks => Some ks | _ => None end.
Definition asCiphertext (a : Artifact) : option Ciphertext :=
  match a with ACiphertext c => Some c | _ => None end.
Definition asBinFHEContext (a : Artifact) : option BinFHEContext :=
  match a with ABinFHEContext b => Some b | _ => None end.
Definition asRingGSWACCKey (a : Artifact) : option RingGSWACCKey :=
  match a with ARingGSWACCKey k => Some k | _ => None end.
Definition asLWESwitchingKey (a : Artifact) : option LWESwitchingKey :=
  match a with ALWESwitchingKey k => Some k | _ => None end.

(** What a blob of a context carries: parameters and capabilities, not the
    attached secondary context, inter-scheme key or precomputation. *)
Definition cc_serialized (cc : CryptoContext) : CryptoContext :=
  mkCC (cc_params cc) (cc_enabled cc) (cc_schswch cc) None None None.

(** What a blob of a secondary context carries: its parameters; the
    bootstrapping keys travel in blobs of their own. *)
Definition bin_serialized (b : BinFHEContext) : BinFHEContext :=
  mkBinCC (bin_paramset b) (bin_arbFunc b) (bin_logQ b) (bin_beta b)
    (bin_baseG b) None ∅.

(** ** Events, world and environment *)

Inductive Event :=
  | EGenCryptoContext (p : CCParams)
  | EEnable (f : PKESchemeFeature)
  | EKeyGen
  | EEvalSchemeSwitchingSetup (a : SchSwchSetup)
  | EEvalSchemeSwitchingKeyGen (kp : KeyPair) (lwesk : LWEPrivateKey)
  | EMakeCKKSPackedPlaintext (v : list Q)
  | EEncrypt (pk : PublicKey) (p : Plaintext)
  | EOpenOut (path : string) (ok : bool)
  | EOpenIn (path : string) (ok : bool)
  | EPack (path : string) (a : Artifact) (ok : bool)
  | EUnpack (path : string) (ok : bool)
  | EClearEvalMultKeys
  | EClearEvalSumKeys
  | EClearEvalAutomorphismKeys
  | EReleaseAllContexts
  | EBTKeyMapLoadSingleElement (baseG : N) (k : RingGSWBTKey)
  | EBTKeyLoad (k : RingGSWBTKey)
  | ESetBinCCForSchemeSwitch (b : BinFHEContext)
  | ESetSwkFC (c : Ciphertext)
  | EEvalCompareSwitchPrecompute (pLWE : Z) (initLevel : Z) (scaleSign : Q)
      (unit_ : bool)
  | EEvalMinSchemeSwitching (c : Ciphertext) (pk : PublicKey)
      (numValues numSlots : Z) (pLWE : Z) (scaleSign : Q)
  | EDecrypt (sk : PrivateKey) (c : option Ciphertext)
  | ESetLength (n : Z)
  | ECout (s : string)
  | ECerr (s : string)
  | EExit (code : Z).

(** The directory of blobs, the process-wide registries of the engine and
    the events so far (oldest first). *)
Record World := mkWorld {
  files : gmap string Blob;
  evalMultKeys : list EvalKey;
  evalSumKeys : list EvalKey;
  evalAutomorphismKeys : list EvalKey;
  allContexts : list CryptoContext;
  trace : list Event
}.

(** What the program cannot decide: which files can be written, and what
    the engine generates. *)
Record Env := mkEnv {
  can_write : string → bool;
  ser_multKey_ok : bool;
  ser_rotKey_ok : bool;
  gen_key : KeyMaterial;
  gen_lwesk : KeyMaterial;
  gen_evalMultKeys : list EvalKey;
  gen_evalSumKeys : list EvalKey;
  gen_evalAutomorphismKeys : list EvalKey;
  gen_BTKey : RingGSWBTKey;
  gen_BTKeyMap : gmap N RingGSWBTKey;
  gen_beta : Z;
  gen_baseG : N;
  gen_noise : list Q
}.

(** ** The monad: state, [std::exit] and uncaught engine exceptions *)

Inductive Outcome (A : Type) :=
  | Done (a : A)
  | Exited (code : Z)
  | Thrown (what : string).
Arguments Done {A} a.
Arguments Exited {A} code.
Arguments Thrown {A} what.

Definition M (A : Type) : Type := World → Outcome A * World.

Global Instance M_ret : MRet M := λ A a w, (Done a, w).
Global Instance M_bind : MBind M := λ A B f m w,
  match m w with
  | (Done a, w') => f a w'
  | (Exited c, w') => (Exited c, w')
  | (Thrown s, w') => (Thrown s, w')
  end.

Definition emit (e : Event) : M unit := λ w,
  (Done tt, mkWorld (files w) (evalMultKeys w) (evalSumKeys w)
              (evalAutomorphismKeys w) (allContexts w) (trace w ++ [e])).

Definition get_world : M World := λ w, (Done w, w).

Definition set_files (f : gmap string Blob) : M unit := λ w,
  (Done tt, mkWorld f (evalMultKeys w) (evalSumKeys w)
              (evalAutomorphismKeys w) (allContexts w) (trace w)).
Definition set_evalMultKeys (ks : list EvalKey) : M unit := λ w,
  (Done tt, mkWorld (files w) ks (evalSumKeys w)
              (evalAutomorphismKeys w) (allContexts w) (trace w)).
Definition set_evalSumKeys (ks : list EvalKey) : M unit := λ w,
  (Done tt, mkWorld (files w) (evalMultKeys w) ks
              (evalAutomorphismKeys w) (allContexts w) (trace w)).
Definition set_evalAutomorphismKeys (ks : list EvalKey) : M unit := λ w,
  (Done tt, mkWorld (files w) (evalMultKeys w) (evalSumKeys w)
              ks (allContexts w) (trace w)).
Definition set_allContexts (cs : list CryptoContext) : M unit := λ w,
  (Done tt, mkWorld (files w) (evalMultKeys w) (evalSumKeys w)
              (evalAutomorphismKeys w) cs (trace w)).

(** [std::exit(code)]: the rest of the program does not run. *)
Definition exit {A} (code : Z) : M A := λ w,
  match emit (EExit code) w with (_, w') => (Exited code, w') end.

(** An exception of the engine; the program catches none. *)
Definition throw {A} (what : string) : M A := λ w, (Thrown what, w).

Definition cout (s : string) : M unit := emit (ECout s).
Definition cerr (s : string) : M unit := emit (ECerr s).

(** [if (b) { body }] with no [else]. *)
Definition when_ (b : bool) (body : M unit) : M unit :=
  if b then body else mret tt.

Global Instance PKESchemeFeature_eq_dec : EqDecision PKESchemeFeature.
Proof. solve_decision. Defined.

(** ** Position of the minimum

    The position of the first least element, and the vector that marks a
    position with a one. *)

Fixpoint argmin_from (best : Q) (besti i : nat) (l : list Q) : nat :=
  match l with
  | [] => besti
  | x :: r =>
      if Qle_bool best x then argmin_from best besti (S i) r
      else argmin_from x i (S i) r
  end.

Definition argmin (l : list Q) : nat :=
  match l with
  | [] => O
  | x :: r => argmin_from x O 1%nat r
  end.

Definition one_hot (n i : nat) : list Q :=
  (λ j, if decide (j = i) then 1%Q else 0%Q) <$> seq 0 n.

(** ** The engine's operations

    Modelled from the spec: the crypto engine (context construction, key
    generation, scheme-switching setup and key generation, encryption,
    decryption, the switching argmin, [Serial]) is not among the sources of
    the example. Each operation records its call and has the effect the
    spec gives it; arithmetic inside the schemes is exact. *)

Section Program.

Context (env : Env).

Definition GenCryptoContext (p : CCParams) : M CryptoContext :=
  emit (EGenCryptoContext p);;
  w ← get_world;
  let cc := mkCC p [] None None None None in
  set_allContexts (allContexts w ++ [cc]);;
  mret cc.

(** Enabling a capability twice is the same as enabling it once. *)
Definition enable_feature (f : PKESchemeFeature)
    (enabled : list PKESchemeFeature) : list PKESchemeFeature :=
  if decide (f ∈ enabled) then enabled else enabled ++ [f].

Definition Enable (f : PKESchemeFeature) (cc : CryptoContext)
  : M CryptoContext :=
  emit (EEnable f);;
  mret (mkCC (cc_params cc) (enable_feature f (cc_enabled cc))
          (cc_schswch cc) (cc_binCC cc) (cc_swkFC cc) (cc_precompute cc)).

Definition KeyGen (cc : CryptoContext) : M KeyPair :=
  emit EKeyGen;;
  mret (mkKeyPair (PK (gen_key env)) (SK (gen_key env))).

(** Allocates and parameterizes the secondary context inside the primary
    one and returns the secondary scheme's private key. *)
Definition EvalSchemeSwitchingSetup (a : SchSwchSetup) (cc : CryptoContext)
  : M (CryptoContext * LWEPrivateKey) :=
  emit (EEvalSchemeSwitchingSetup a);;
  mret (mkCC (cc_params cc) (cc_enabled cc) (Some a)
          (Some (mkBinCC (ss_slBin a) (ss_arbFunc a) (ss_logQ a)
                   (gen_beta env) (gen_baseG env) None ∅))
          (cc_swkFC cc) (cc_precompute cc),
        LWESK (gen_lwesk env)).

(** Populates the inter-scheme key, the secondary context's bootstrapping
    keys and the process-wide registries of evaluation keys. *)
Definition EvalSchemeSwitchingKeyGen (kp : KeyPair) (lwesk : LWEPrivateKey)
    (cc : CryptoContext) : M CryptoContext :=
  emit (EEvalSchemeSwitchingKeyGen kp lwesk);;
  match cc_binCC cc with
  | None => throw "scheme switching has not been set up"
  | Some b =>
      w ← get_world;
      set_evalMultKeys (evalMultKeys w ++ gen_evalMultKeys env);;
      set_evalSumKeys (evalSumKeys w ++ gen_evalSumKeys env);;
      set_evalAutomorphismKeys
        (evalAutomorphismKeys w ++ gen_evalAutomorphismKeys env);;
      let 'SK k := secretKey kp in
      let 'LWESK l := lwesk in
      mret (mkCC (cc_params cc) (cc_enabled cc) (cc_schswch cc)
              (Some (mkBinCC (bin_paramset b) (bin_arbFunc b) (bin_logQ b)
                       (bin_beta b) (bin_baseG b) (Some (gen_BTKey env))
                       (gen_BTKeyMap env)))
              (Some (SwkFC k l)) (cc_precompute cc))
  end.

Definition GetBinCCForSchemeSwitch (cc : CryptoContext) : M BinFHEContext :=
  match cc_binCC cc with
  | Some b => mret b
  | None => throw "no secondary context"
  end.

Definition GetSwkFC (cc : CryptoContext) : M Ciphertext :=
  match cc_swkFC cc with
  | Some c => mret c
  | None => throw "no inter-scheme switching key"
  end.

Definition GetRefreshKey (b : BinFHEContext) : M RingGSWACCKey :=
  match bin_BTKey b with
  | Some k => mret (BSkey k)
  | None => throw "no bootstrapping key"
  end.

Definition GetSwitchKey (b : BinFHEContext) : M LWESwitchingKey :=
  match bin_BTKey b with
  | Some k => mret (KSkey k)
  | None => throw "no bootstrapping key"
  end.

(** [GetBTKeyMap] followed by iteration from [begin()] to [end()]: the
    entries of a [std::map], in ascending order of the base. *)
Definition BTKeyMap_le (x y : N * RingGSWBTKey) : Prop := (x.1 ≤ y.1)%N.
Global Instance BTKeyMap_le_dec : RelDecision BTKeyMap_le.
Proof. intros x y. unfold BTKeyMap_le. apply _. Defined.

Definition GetBTKeyMap (b : BinFHEContext) : list (N * RingGSWBTKey) :=
  merge_sort BTKeyMap_le (map_to_list (bin_BTKeyMap b)).

Definition slots_of (cc : CryptoContext) : nat :=
  match batchSize (cc_params cc) with
  | Some n => Z.to_nat n
  | None => 0
  end.

Definition MakeCKKSPackedPlaintext (vec : list Q) (cc : CryptoContext)
  : M Plaintext :=
  emit (EMakeCKKSPackedPlaintext vec);;
  if decide (length vec ≤ slots_of cc)%nat then mret vec
  else throw "the vector does not fit the batch size".

(** The ciphertext has as many slots as the batch size; the slots beyond
    the logical length of the plaintext hold zero. *)
Definition Encrypt (pk : PublicKey) (p : Plaintext) (cc : CryptoContext)
  : M Ciphertext :=
  emit (EEncrypt pk p);;
  let 'PK k := pk in
  mret (Enc k (p ++ replicate (slots_of cc - length p) (0%Q))).

(** Decryption under the matching secret key gives back the slots; under
    any other key, or of the inter-scheme key, it gives noise. *)
Definition decrypted (sk : PrivateKey) (c : Ciphertext) : Plaintext :=
  match c, sk with
  | Enc k v, SK k' => if decide (k = k') then v else gen_noise env
  | SwkFC _ _, _ => gen_noise env
  end.

Definition Decrypt (sk : PrivateKey) (c : option Ciphertext)
  : M Plaintext :=
  emit (EDecrypt sk c);;
  match c with
  | None => throw "ciphertext passed to Decrypt is empty"
  | Some c => mret (decrypted sk c)
  end.

(** [SetLength(size_t)]: the logical length of the plaintext becomes [n].
    The program passes an [int]; a negative one arrives as a length no
    vector can have, and the resize inside throws. *)
Definition SetLength (n : Z) (p : Plaintext) : M Plaintext :=
  emit (ESetLength n);;
  if decide (n < 0)%Z then throw "std::length_error"
  else mret (resize (Z.to_nat n) (0%Q) p).

Definition GetSlots (c : Ciphertext) : Z :=
  match c with
  | Enc _ v => Z.of_nat (length v)
  | SwkFC _ _ => 0
  end.

(** *** The process-wide registries *)

Definition ClearEvalMultKeys : M unit :=
  emit EClearEvalMultKeys;; set_evalMultKeys [].
Definition ClearEvalSumKeys : M unit :=
  emit EClearEvalSumKeys;; set_evalSumKeys [].
Definition ClearEvalAutomorphismKeys : M unit :=
  emit EClearEvalAutomorphismKeys;; set_evalAutomorphismKeys [].
Definition ReleaseAllContexts : M unit :=
  emit EReleaseAllContexts;; set_allContexts [].

(** *** [Serial] and the file streams

    A blob written to a path replaces what was there. A call reports
    failure by returning [false] (here: [None] for a read), it does not
    throw. *)

Definition serialized (a : Artifact) : Artifact :=
  match a with
  | ACryptoContext cc => ACryptoContext (cc_serialized cc)
  | ABinFHEContext b => ABinFHEContext (bin_serialized b)
  | _ => a
  end.

Definition SerializeToFile (path : string) (a : Artifact) : M bool :=
  if can_write env path then
    w ← get_world;
    set_files (<[path := BlobOf (serialized a)]> (files w));;
    emit (EPack path a true);;
    mret true
  else
    emit (EPack path a false);;
    mret false.

(** [std::ofstream f(path, out | binary)] followed by [f.is_open()]. *)
Definition ofstream_open (path : string) : M bool :=
  if can_write env path then
    w ← get_world;
    set_files (<[path := BlobEmpty]> (files w));;
    emit (EOpenOut path true);;
    mret true
  else
    emit (EOpenOut path false);;
    mret false.

(** The multi-key encoders write the live registry to an open stream. *)
Definition SerializeEvalMultKey (path : string) : M bool :=
  w ← get_world;
  if ser_multKey_ok env then
    set_files (<[path := BlobOf (AEvalMultKeys (evalMultKeys w))]> (files w));;
    emit (EPack path (AEvalMultKeys (evalMultKeys w)) true);;
    mret true
  else
    emit (EPack path (AEvalMultKeys (evalMultKeys w)) false);;
    mret false.

Definition SerializeEvalAutomorphismKey (path : string) : M bool :=
  w ← get_world;
  if ser_rotKey_ok env then
    set_files (<[path := BlobOf (AEvalAutomorphismKeys
                                   (evalAutomorphismKeys w))]> (files w));;
    emit (EPack path (AEvalAutomorphismKeys (evalAutomorphismKeys w)) true);;
    mret true
  else
    emit (EPack path (AEvalAutomorphismKeys (evalAutomorphismKeys w)) false);;
    mret false.

(** What a read of [path] at the type selected by [proj] yields. *)
Definition read_blob {T} (proj : Artifact → option T) (path : string)
    (fs : gmap string Blob) : option T :=
  match fs !! path with
  | Some (BlobOf a) => proj a
  | _ => None
  end.

Definition DeserializeFromFile {T} (proj : Artifact → option T)
    (path : string) : M (option T) :=
  w ← get_world;
  match read_blob proj path (files w) with
  | Some x => emit (EUnpack path true);; mret (Some x)
  | None => emit (EUnpack path false);; mret None
  end.

(** [std::ifstream f(path, in | binary)] followed by [f.is_open()]. *)
Definition ifstream_open (path : string) : M bool :=
  w ← get_world;
  match files w !! path with
  | Some _ => emit (EOpenIn path true);; mret true
  | None => emit (EOpenIn path false);; mret false
  end.

(** The multi-key decoders add what they read to the live registry. *)
Definition DeserializeEvalMultKey (path : string) : M bool :=
  w ← get_world;
  match read_blob asEvalMultKeys path (files w) with
  | Some ks =>
      set_evalMultKeys (evalMultKeys w ++ ks);;
      emit (EUnpack path true);;
      mret true
  | None => emit (EUnpack path false);; mret false
  end.

Definition DeserializeEvalAutomorphismKey (path : string) : M bool :=
  w ← get_world;
  match read_blob asEvalAutomorphismKeys path (files w) with
  | Some ks =>
      set_evalAutomorphismKeys (evalAutomorphismKeys w ++ ks);;
      emit (EUnpack path true);;
      mret true
  | None => emit (EUnpack path false);; mret false
  end.

(** *** The client's side of the engine *)

Definition BTKeyMapLoadSingleElement (baseG : N) (k : RingGSWBTKey)
    (b : BinFHEContext) : M BinFHEContext :=
  emit (EBTKeyMapLoadSingleElement baseG k);;
  mret (mkBinCC (bin_paramset b) (bin_arbFunc b) (bin_logQ b) (bin_beta b)
          (bin_baseG b) (bin_BTKey b) (<[baseG := k]> (bin_BTKeyMap b))).

Definition BTKeyLoad (k : RingGSWBTKey) (b : BinFHEContext)
  : M BinFHEContext :=
  emit (EBTKeyLoad k);;
  mret (mkBinCC (bin_paramset b) (bin_arbFunc b) (bin_logQ b) (bin_beta b)
          (bin_baseG b) (Some k) (bin_BTKeyMap b)).

Definition SetBinCCForSchemeSwitch (b : BinFHEContext) (cc : CryptoContext)
  : M CryptoContext :=
  emit (ESetBinCCForSchemeSwitch b);;
  mret (mkCC (cc_params cc) (cc_enabled cc) (cc_schswch cc) (Some b)
          (cc_swkFC cc) (cc_precompute cc)).

Definition SetSwkFC (c : Ciphertext) (cc : CryptoContext) : M CryptoContext :=
  emit (ESetSwkFC c);;
  mret (mkCC (cc_params cc) (cc_enabled cc) (cc_schswch cc) (cc_binCC cc)
          (Some c) (cc_precompute cc)).

(** [GetBeta().ConvertToInt()]: an unsigned 64-bit integer. *)
Definition GetBeta (b : BinFHEContext) : Z := bin_beta b.

Definition EvalCompareSwitchPrecompute (pLWE initLevel : Z) (scaleSign : Q)
    (unit_ : bool) (cc : CryptoContext) : M CryptoContext :=
  emit (EEvalCompareSwitchPrecompute pLWE initLevel scaleSign unit_);;
  mret (mkCC (cc_params cc) (cc_enabled cc) (cc_schswch cc) (cc_binCC cc)
          (cc_swkFC cc) (Some (pLWE, initLevel, scaleSign, unit_))).

(** The entry of the bootstrapping key map for the decomposition base the
    secondary context works with. *)
Definition BTKeyMap_entry (b : BinFHEContext) : option RingGSWBTKey :=
  bin_BTKeyMap b !! bin_baseG b.

(** The switching argmin needs every artifact it depends on re-attached:
    the secondary context with its default bootstrapping key and with the
    entry of its bootstrapping key map for the base it works with, the
    inter-scheme key, and the precomputation. It gives two ciphertexts,
    the minimum and its position (one-hot when the context was set up
    so). *)
Definition min_result (k : KeyMaterial) (v : list Q)
    (numValues numSlots : Z) : Ciphertext :=
  let values := take (Z.to_nat numValues) v in
  Enc k (resize (Z.to_nat numSlots) (0%Q) [nth (argmin values) values (0%Q)]).

Definition argmin_result (oneHot : bool) (k : KeyMaterial) (v : list Q)
    (numValues numSlots : Z) : Ciphertext :=
  let values := take (Z.to_nat numValues) v in
  Enc k (resize (Z.to_nat numSlots) (0%Q)
           (if oneHot then one_hot (length values) (argmin values)
            else [inject_Z (Z.of_nat (argmin values))])).

Definition argmin_ciphertexts (oneHot : bool) (k : KeyMaterial)
    (v : list Q) (numValues numSlots : Z) : list Ciphertext :=
  [ min_result k v numValues numSlots;
    argmin_result oneHot k v numValues numSlots ].

Definition EvalMinSchemeSwitching (c : Ciphertext) (pk : PublicKey)
    (numValues numSlots : Z) (pLWE : Z) (scaleSign : Q) (cc : CryptoContext)
  : M (list Ciphertext) :=
  emit (EEvalMinSchemeSwitching c pk numValues numSlots pLWE scaleSign);;
  match cc_binCC cc ≫= bin_BTKey, cc_binCC cc ≫= BTKeyMap_entry,
        cc_swkFC cc, cc_precompute cc, cc_schswch cc, c with
  | Some _, Some _, Some _, Some _, Some a, Enc k v =>
      mret (argmin_ciphertexts (ss_oneHot a) k v numValues numSlots)
  | _, _, _, _, _, _ => throw "scheme switching is not ready"
  end.

End Program.

(** ** The program *)

(** Save-load locations. *)
Definition DATAFOLDER : string := "demoData".
Definition ccLocation : string := "/cryptocontext.txt".
Definition pubKeyLocation : string := "/key_pub.txt".
Definition multKeyLocation : string := "/key_mult.txt".
Definition rotKeyLocation : string := "/key_rot.txt".
Definition paramssLocation : string := "/paramss.txt".
Definition binccLocation : string := "/bincryptocontext.txt".
Definition btRkLocation : string := "/bt_rk.txt".
Definition btSwkLocation : string := "/bt_swk.txt".
Definition FHEWtoCKKSKeyLocation : string := "/key_swkFC.txt".
Definition cipherLocation : string := "/ciphertext.txt".
Definition cipherArgminLocation : string := "/ciphertextArgmin.txt".

(** The per-base blob names [DATAFOLDER + "/" + std::to_string(index) +
    "refreshKey.txt"] and [... + "ksKey.txt"]. *)
Definition refreshKeyLocation (index : N) : string :=
  DATAFOLDER +:+ "/" +:+ pretty index +:+ "refreshKey.txt".
Definition ksKeyLocation (index : N) : string :=
  DATAFOLDER +:+ "/" +:+ pretty index +:+ "ksKey.txt".

(** Unsigned machine integers. *)
Definition uint32 (z : Z) : Z := z mod 2 ^ 32.
Definition uint64 (z : Z) : Z := z mod 2 ^ 64.

Section Roles.

Context (env : Env).

(** [std::setw(50) << std::setfill('*') << '\n'] pads the newline with 49
    stars. *)
Definition stars : string :=
  "*************************************************".

Definition demarcate (msg : string) : M unit :=
  cout stars;; cout msg;; cout stars.

(** [if (!call) { std::cerr << diag; std::exit(1); }] around a read. *)
Definition or_exit {T} (call : M (option T)) (diag : string) : M T :=
  r ← call;
  match r with
  | Some x => mret x
  | None => cerr diag;; exit 1
  end.

(** *** serverVerification *)

Definition serverVerification (cc : CryptoContext) (kp : KeyPair)
    (vectorSize : Z) : M Plaintext :=
  (* the result of the call is not looked at; on failure the variable
     stays empty *)
  serverCiphertextFromClient_Argmin ←
    DeserializeFromFile asCiphertext (DATAFOLDER +:+ cipherArgminLocation);
  cout "Deserialized all data from client on server";;
  demarcate "Part 5: Correctness verification";;
  serverPlaintextFromClient_Argmin ←
    Decrypt env (secretKey kp) serverCiphertextFromClient_Argmin;
  serverPlaintextFromClient_Argmin ←
    SetLength vectorSize serverPlaintextFromClient_Argmin;
  mret serverPlaintextFromClient_Argmin.

(** *** serverSetupAndWrite *)

(** The loop over the secondary context's bootstrapping key map. *)
Fixpoint serialize_BTKeyMap (entries : list (N * RingGSWBTKey)) : M unit :=
  match entries with
  | [] => mret tt
  | (index, thekey) :: rest =>
      ok ← SerializeToFile env (refreshKeyLocation index)
             (ARingGSWACCKey (BSkey thekey));
      when_ (negb ok)
        (cerr "Error serializing the refreshing key";; exit 1);;
      ok ← SerializeToFile env (ksKeyLocation index)
             (ALWESwitchingKey (KSkey thekey));
      when_ (negb ok)
        (cerr "Error serializing the switching key";; exit 1);;
      cout ("The BT map element for baseG = " +:+ pretty index
            +:+ " has been serialized.");;
      serialize_BTKeyMap rest
  end.

Definition serverSetupAndWrite
    (ringDim batchSize multDepth scaleModSize firstModSize logQ_LWE : Z)
    (oneHot : bool) : M (CryptoContext * KeyPair * Z) :=
  let sl := HEStd_NotSet in
  let slBin := TOY in
  let arbFunc := false in

  let parameters := CCParams_default in
  let parameters := SetMultiplicativeDepth multDepth parameters in
  let parameters := SetSecurityLevel sl parameters in
  let parameters := SetRingDim ringDim parameters in
  let parameters := SetBatchSize batchSize parameters in
  let parameters := SetScalingModSize scaleModSize parameters in
  let parameters := SetFirstModSize firstModSize parameters in
  let parameters := SetScalingTechnique FLEXIBLEAUTO parameters in

  serverCC ← GenCryptoContext parameters;

  serverCC ← Enable PKE serverCC;
  serverCC ← Enable KEYSWITCH serverCC;
  serverCC ← Enable LEVELEDSHE serverCC;
  serverCC ← Enable ADVANCEDSHE serverCC;
  serverCC ← Enable FHE serverCC;
  serverCC ← Enable SCHEMESWITCH serverCC;

  cout "Cryptocontext generated";;

  serverKP ← KeyGen env serverCC;
  cout "Keypair generated";;

  '(serverCC, privateKeyFHEW) ←
    EvalSchemeSwitchingSetup env
      (mkSchSwchSetup sl slBin arbFunc logQ_LWE false batchSize batchSize
         true oneHot false [27; 0; 0; 1; 0])
      serverCC;

  serverCC ← EvalSchemeSwitchingKeyGen env serverKP privateKeyFHEW serverCC;
  serverBinCC ← GetBinCCForSchemeSwitch serverCC;
  swkFHEWtoCKKS ← GetSwkFC serverCC;

  let vec := [1; 2; 3; 4]%Q in
  (* the values of the vector, printed after this heading, are left out *)
  cout "Displaying data vector: ";;

  serverP ← MakeCKKSPackedPlaintext vec serverCC;

  (* the plaintext printed after this heading is left out *)
  cout "Plaintext version of vector: ";;
  cout "Plaintexts have been generated from complex-double vectors";;

  serverC ← Encrypt (publicKey serverKP) serverP serverCC;

  cout "Ciphertext have been generated from Plaintext";;

  demarcate "Scheme Switching Part 2: Data Serialization (server)";;

  ok ← SerializeToFile env (DATAFOLDER +:+ ccLocation)
         (ACryptoContext serverCC);
  when_ (negb ok)
    (cerr "Error writing serialization of the crypto context to cryptocontext.txt";;
     exit 1);;
  cout "Cryptocontext serialized";;

  ok ← SerializeToFile env (DATAFOLDER +:+ pubKeyLocation)
         (APublicKey (publicKey serverKP));
  when_ (negb ok)
    (cerr "Exception writing public key to pubkey.txt";; exit 1);;
  cout "Public key serialized";;

  is_open ← ofstream_open env (DATAFOLDER +:+ multKeyLocation);
  (if (is_open : bool) then
     ok ← SerializeEvalMultKey env (DATAFOLDER +:+ multKeyLocation);
     when_ (negb ok) (cerr "Error writing eval mult keys";; exit 1);;
     cout "EvalMult and relinearization keys have been serialized"
   else
     cerr "Error serializing EvalMult keys";; exit 1);;

  is_open ← ofstream_open env (DATAFOLDER +:+ rotKeyLocation);
  (if (is_open : bool) then
     ok ← SerializeEvalAutomorphismKey env (DATAFOLDER +:+ rotKeyLocation);
     when_ (negb ok) (cerr "Error writing rotation keys";; exit 1);;
     cout "Rotation keys have been serialized"
   else
     cerr "Error serializing Rotation keys";; exit 1);;

  ok ← SerializeToFile env (DATAFOLDER +:+ FHEWtoCKKSKeyLocation)
         (ACiphertext swkFHEWtoCKKS);
  when_ (negb ok) (cerr " Error writing switching key";; exit 1);;

  ok ← SerializeToFile env (DATAFOLDER +:+ cipherLocation)
         (ACiphertext serverC);
  when_ (negb ok) (cerr " Error writing ciphertext";; exit 1);;

  ok ← SerializeToFile env (DATAFOLDER +:+ binccLocation)
         (ABinFHEContext serverBinCC);
  when_ (negb ok)
    (cerr "Error serializing the binfhe cryptocontext";; exit 1);;
  cout "The binfhe cryptocontext has been serialized.";;

  refreshKey ← GetRefreshKey serverBinCC;
  ok ← SerializeToFile env (DATAFOLDER +:+ btRkLocation)
         (ARingGSWACCKey refreshKey);
  when_ (negb ok) (cerr "Error serializing the refreshing key";; exit 1);;
  cout "The refreshing key has been serialized.";;

  switchKey ← GetSwitchKey serverBinCC;
  ok ← SerializeToFile env (DATAFOLDER +:+ btSwkLocation)
         (ALWESwitchingKey switchKey);
  when_ (negb ok) (cerr "Error serializing the switching key";; exit 1);;
  cout "The key switching key has been serialized.";;

  let BTKeyMap := GetBTKeyMap serverBinCC in
  serialize_BTKeyMap BTKeyMap;;

  mret (serverCC, serverKP, Z.of_nat (length vec)).

(** *** clientProcess *)

(** The loop over [baseGlist]; [refreshKey] and [ksKey] are the variables
    declared before the loop, overwritten by each successful read. *)
Fixpoint load_BTKeyMap (baseGlist : list N) (refreshKey : RingGSWACCKey)
    (ksKey : LWESwitchingKey) (clientBinCC : BinFHEContext)
  : M (RingGSWACCKey * LWESwitchingKey * BinFHEContext) :=
  match baseGlist with
  | [] => mret (refreshKey, ksKey, clientBinCC)
  | baseG :: rest =>
      refreshKey ←
        or_exit (DeserializeFromFile asRingGSWACCKey
                   (refreshKeyLocation baseG))
          "Could not deserialize the refresh key";
      ksKey ←
        or_exit (DeserializeFromFile asLWESwitchingKey (ksKeyLocation baseG))
          "Could not deserialize the switching key";
      cout ("The BT map element for baseG = " +:+ pretty baseG
            +:+ " has been deserialized.");;
      clientBinCC ←
        BTKeyMapLoadSingleElement baseG (mkBTKey refreshKey ksKey)
          clientBinCC;
      load_BTKeyMap rest refreshKey ksKey clientBinCC
  end.

Definition clientProcess (modulus_LWE : Z) : M unit :=
  ClearEvalMultKeys;;
  ClearEvalSumKeys;;
  ClearEvalAutomorphismKeys;;
  ReleaseAllContexts;;

  clientCC ←
    or_exit (DeserializeFromFile asCryptoContext (DATAFOLDER +:+ ccLocation))
      ("I cannot read serialized data from: " +:+ DATAFOLDER +:+ ccLocation);
  cout "Client CC deserialized";;

  clientPublicKey ←
    or_exit (DeserializeFromFile asPublicKey (DATAFOLDER +:+ pubKeyLocation))
      ("I cannot read serialized data from: " +:+ DATAFOLDER
       +:+ pubKeyLocation);
  cout "Client KP deserialized";;

  is_open ← ifstream_open (DATAFOLDER +:+ multKeyLocation);
  when_ (negb is_open)
    (cerr ("Cannot read serialization from " +:+ DATAFOLDER
           +:+ multKeyLocation);;
     exit 1);;
  ok ← DeserializeEvalMultKey (DATAFOLDER +:+ multKeyLocation);
  when_ (negb ok) (cerr "Could not deserialize eval mult key file";; exit 1);;
  cout "Deserialized eval mult keys";;

  is_open ← ifstream_open (DATAFOLDER +:+ rotKeyLocation);
  when_ (negb is_open)
    (cerr ("Cannot read serialization from " +:+ DATAFOLDER
           +:+ multKeyLocation);;
     exit 1);;
  ok ← DeserializeEvalAutomorphismKey (DATAFOLDER +:+ rotKeyLocation);
  when_ (negb ok) (cerr "Could not deserialize eval rot key file";; exit 1);;
  cout "Deserialized rotation keys";;

  clientBinCC ←
    or_exit (DeserializeFromFile asBinFHEContext
               (DATAFOLDER +:+ binccLocation))
      "Could not deserialize the binfhe cryptocontext";
  cout "The cryptocontext has been deserialized.";;

  refreshKey ←
    or_exit (DeserializeFromFile asRingGSWACCKey (DATAFOLDER +:+ btRkLocation))
      "Could not deserialize the refresh key";
  cout "The refresh key has been deserialized.";;

  ksKey ←
    or_exit (DeserializeFromFile asLWESwitchingKey
               (DATAFOLDER +:+ btSwkLocation))
      "Could not deserialize the switching key";
  cout "The switching key has been deserialized.";;

  let baseGlist : list N := [N.shiftl 1 18] in

  '(refreshKey, ksKey, clientBinCC) ←
    load_BTKeyMap baseGlist refreshKey ksKey clientBinCC;

  clientBinCC ← BTKeyLoad (mkBTKey refreshKey ksKey) clientBinCC;

  clientCC ← SetBinCCForSchemeSwitch clientBinCC clientCC;

  swkFHEWtoCKKS ←
    or_exit (DeserializeFromFile asCiphertext
               (DATAFOLDER +:+ FHEWtoCKKSKeyLocation))
      ("Cannot read serialization from " +:+ DATAFOLDER
       +:+ FHEWtoCKKSKeyLocation);
  cout "Deserialized switching key";;

  clientCC ← SetSwkFC swkFHEWtoCKKS clientCC;

  clientC ←
    or_exit (DeserializeFromFile asCiphertext (DATAFOLDER +:+ cipherLocation))
      ("Cannot read serialization from " +:+ DATAFOLDER +:+ cipherLocation);
  cout "Deserialized ciphertext";;

  let scaleSign := 512%Q in
  let beta := GetBeta clientBinCC in
  (* unsigned 64-bit arithmetic; dividing by zero is a fault *)
  pLWE ←
    (if decide (uint64 (2 * beta) = 0) then throw "division by zero"
     else mret (modulus_LWE / uint64 (2 * beta)));

  clientCC ←
    EvalCompareSwitchPrecompute (uint32 pLWE) 0 scaleSign false clientCC;

  cout "Done with precomputations";;

  clientCiphertextArgmin ←
    EvalMinSchemeSwitching clientC clientPublicKey (GetSlots clientC)
      (GetSlots clientC) 0 1%Q clientCC;

  cout "Done with argmin computation";;

  demarcate
    "Part 3.5: Client Serialization of data that has been operated on";;

  result ←
    match clientCiphertextArgmin !! 1%nat with
    | Some c => mret c
    | None => throw "vector index out of range"
    end;
  (* the result of the call is not looked at *)
  _ ← SerializeToFile env (DATAFOLDER +:+ cipherArgminLocation)
        (ACiphertext result);

  cout "Serialized ciphertext from client".

(** *** main *)

Definition main : M Plaintext :=
  cout ("This program requres the subdirectory `" +:+ DATAFOLDER
        +:+ "' to exist, otherwise you will get "
        +:+ "an error writing serializations.");;

  let ringDim := 64 in
  let batchSize := 4 in
  (* [std::log2] is exact on a power of two *)
  let multDepth := 13 + Z.log2 batchSize in
  let logQ_ccLWE := 25 in
  let oneHot := true in
  let scaleModSize := 50 in
  let firstModSize := 60 in

  demarcate
    "Scheme switching Part 1: Cryptocontext generation, key generation, data encryption (server)";;

  '(cc, kp, vectorSize) ←
    serverSetupAndWrite ringDim batchSize multDepth scaleModSize firstModSize
      logQ_ccLWE oneHot;

  demarcate "Scheme switching Part 3: Client deserialize all data";;

  clientProcess (uint32 (Z.shiftl 1 logQ_ccLWE));;

  demarcate
    "Scheme switching Part 4: Server deserialization of data from client. ";;

  ArgminRes ← serverVerification cc kp vectorSize;

  (* the value printed is the one returned here *)
  mret ArgminRes.

End Roles.

(** An empty world. *)
Definition world0 : World := mkWorld ∅ [] [] [] [] [].

(** * Vocabulary of the properties *)

(** The world after one more event. *)
Definition log (e : Event) (w : World) : World :=
  mkWorld (files w) (evalMultKeys w) (evalSumKeys w)
    (evalAutomorphismKeys w) (allContexts w) (trace w ++ [e]).

(** [wp m w Q]: the run of [m] from [w] ends in an outcome and a world
    that satisfy [Q]. *)
Definition wp {A} (m : M A) (w : World) (Q : Outcome A → World → Prop)
  : Prop :=
  Q (m w).1 (m w).2.

(** [emits P m]: whatever the world, a run of [m] only appends events to
    the trace, and each of them satisfies [P]. *)
Definition emits {A} (P : Event → Prop) (m : M A) : Prop :=
  ∀ w, ∃ l, trace (m w).2 = trace w ++ l ∧ Forall P l.

(** The world after the events [l]. *)
Definition logs (l : list Event) (w : World) : World :=
  mkWorld (files w) (evalMultKeys w) (evalSumKeys w)
    (evalAutomorphismKeys w) (allContexts w) (trace w ++ l).

(** Kinds of events. *)
Definition is_unpack (e : Event) : bool :=
  match e with
  | EUnpack _ _ | EOpenIn _ _ => true
  | _ => false
  end.

Definition is_pack (e : Event) : bool :=
  match e with
  | EPack _ _ _ | EOpenOut _ _ => true
  | _ => false
  end.

Definition is_diagnostic (e : Event) : bool :=
  match e with
  | ECerr _ | EExit _ => true
  | _ => false
  end.

(** The calls of [Serial] that write: path, object handed over, result. *)
Definition packed (l : list Event) : list (string * Artifact * bool) :=
  omap (λ e, match e with
             | EPack path a ok => Some (path, a, ok)
             | _ => None
             end) l.

(** The secondary context last attached to the primary one. *)
Definition attached_binCC (l : list Event) : option BinFHEContext :=
  last (omap (λ e, match e with
                   | ESetBinCCForSchemeSwitch b => Some b
                   | _ => None
                   end) l).

(** The pairs loaded into the bootstrapping key map, and the pairs loaded
    as the default bundle. *)
Definition map_loads (l : list Event) : list (N * RingGSWBTKey) :=
  omap (λ e, match e with
             | EBTKeyMapLoadSingleElement b k => Some (b, k)
             | _ => None
             end) l.

Definition default_loads (l : list Event) : list RingGSWBTKey :=
  omap (λ e, match e with EBTKeyLoad k => Some k | _ => None end) l.

(** An event that is handed a private key of the primary scheme. *)
Definition receives_secret (e : Event) : Prop :=
  match e with
  | EEvalSchemeSwitchingKeyGen _ _ => True
  | EDecrypt _ _ => True
  | EPack _ (APrivateKey _) _ => True
  | _ => False
  end.

Definition is_encrypt (e : Event) : Prop :=
  match e with EEncrypt _ _ => True | _ => False end.
Definition is_decrypt (e : Event) : Prop :=
  match e with EDecrypt _ _ => True | _ => False end.
Definition is_sskeygen (e : Event) : Prop :=
  match e with EEvalSchemeSwitchingKeyGen _ _ => True | _ => False end.

(** The only base the client knows of: [1 << 18]. *)
Definition client_baseG : N := 262144.

(** What the client reads from the directory of blobs. *)
Record ClientInputs := mkClientInputs {
  in_cc : CryptoContext;
  in_pk : PublicKey;
  in_multKeys : list EvalKey;
  in_rotKeys : list EvalKey;
  in_binCC : BinFHEContext;
  in_rk0 : RingGSWACCKey;
  in_ks0 : LWESwitchingKey;
  in_rk : RingGSWACCKey;
  in_ks : LWESwitchingKey;
  in_swk : Ciphertext;
  in_c : Ciphertext
}.

Definition client_reads (fs : gmap string Blob) (i : ClientInputs) : Prop :=
  read_blob asCryptoContext (DATAFOLDER +:+ ccLocation) fs = Some (in_cc i)
  ∧ read_blob asPublicKey (DATAFOLDER +:+ pubKeyLocation) fs
    = Some (in_pk i)
  ∧ read_blob asEvalMultKeys (DATAFOLDER +:+ multKeyLocation) fs
    = Some (in_multKeys i)
  ∧ read_blob asEvalAutomorphismKeys (DATAFOLDER +:+ rotKeyLocation) fs
    = Some (in_rotKeys i)
  ∧ read_blob asBinFHEContext (DATAFOLDER +:+ binccLocation) fs
    = Some (in_binCC i)
  ∧ read_blob asRingGSWACCKey (DATAFOLDER +:+ btRkLocation) fs
    = Some (in_rk0 i)
  ∧ read_blob asLWESwitchingKey (DATAFOLDER +:+ btSwkLocation) fs
    = Some (in_ks0 i)
  ∧ read_blob asRingGSWACCKey (refreshKeyLocation client_baseG) fs
    = Some (in_rk i)
  ∧ read_blob asLWESwitchingKey (ksKeyLocation client_baseG) fs
    = Some (in_ks i)
  ∧ read_blob asCiphertext (DATAFOLDER +:+ FHEWtoCKKSKeyLocation) fs
    = Some (in_swk i)
  ∧ read_blob asCiphertext (DATAFOLDER +:+ cipherLocation) fs
    = Some (in_c i).

(** The secondary context the client ends up with. *)
Definition client_binCC (i : ClientInputs) : BinFHEContext :=
  mkBinCC (bin_paramset (in_binCC i)) (bin_arbFunc (in_binCC i))
    (bin_logQ (in_binCC i)) (bin_beta (in_binCC i))
    (bin_baseG (in_binCC i))
    (Some (mkBTKey (in_rk i) (in_ks i)))
    (<[client_baseG := mkBTKey (in_rk i) (in_ks i)]>
       (bin_BTKeyMap (in_binCC i))).

Definition client_pLWE (modulus_LWE : Z) (i : ClientInputs) : Z :=
  uint32 (modulus_LWE / uint64 (2 * bin_beta (in_binCC i))).

(** The events of a client run in which every read succeeds. *)
Definition client_prologue : list Event :=
  [ EClearEvalMultKeys; EClearEvalSumKeys; EClearEvalAutomorphismKeys;
    EReleaseAllContexts ].

Definition client_load_events (i : ClientInputs) : list Event :=
  [ EUnpack (DATAFOLDER +:+ ccLocation) true;
    ECout "Client CC deserialized";
    EUnpack (DATAFOLDER +:+ pubKeyLocation) true;
    ECout "Client KP deserialized";
    EOpenIn (DATAFOLDER +:+ multKeyLocation) true;
    EUnpack (DATAFOLDER +:+ multKeyLocation) true;
    ECout "Deserialized eval mult keys";
    EOpenIn (DATAFOLDER +:+ rotKeyLocation) true;
    EUnpack (DATAFOLDER +:+ rotKeyLocation) true;
    ECout "Deserialized rotation keys";
    EUnpack (DATAFOLDER +:+ binccLocation) true;
    ECout "The cryptocontext has been deserialized.";
    EUnpack (DATAFOLDER +:+ btRkLocation) true;
    ECout "The refresh key has been deserialized.";
    EUnpack (DATAFOLDER +:+ btSwkLocation) true;
    ECout "The switching key has been deserialized.";
    EUnpack (refreshKeyLocation client_baseG) true;
    EUnpack (ksKeyLocation client_baseG) true;
    ECout ("The BT map element for baseG = " +:+ pretty client_baseG
           +:+ " has been deserialized.");
    EBTKeyMapLoadSingleElement client_baseG (mkBTKey (in_rk i) (in_ks i));
    EBTKeyLoad (mkBTKey (in_rk i) (in_ks i));
    ESetBinCCForSchemeSwitch (client_binCC i);
    EUnpack (DATAFOLDER +:+ FHEWtoCKKSKeyLocation) true;
    ECout "Deserialized switching key";
    ESetSwkFC (in_swk i);
    EUnpack (DATAFOLDER +:+ cipherLocation) true;
    ECout "Deserialized ciphertext" ].

Definition client_eval_events (env : Env) (modulus_LWE : Z)
    (i : ClientInputs) (res : Ciphertext) : list Event :=
  [ EEvalCompareSwitchPrecompute (client_pLWE modulus_LWE i) 0 512%Q false;
    ECout "Done with precomputations";
    EEvalMinSchemeSwitching (in_c i) (in_pk i) (GetSlots (in_c i))
      (GetSlots (in_c i)) 0 1%Q;
    ECout "Done with argmin computation";
    ECout stars;
    ECout "Part 3.5: Client Serialization of data that has been operated on";
    ECout stars;
    EPack (DATAFOLDER +:+ cipherArgminLocation) (ACiphertext res)
      (can_write env (DATAFOLDER +:+ cipherArgminLocation));
    ECout "Serialized ciphertext from client" ].

Definition client_events (env : Env) (modulus_LWE : Z) (i : ClientInputs)
    (res : Ciphertext) : list Event :=
  client_prologue ++ client_load_events i
  ++ client_eval_events env modulus_LWE i res.

(** The result ciphertext of the client, given what it read. *)
Definition client_result (i : ClientInputs) (res : Ciphertext) : Prop :=
  ∃ k v a,
    in_c i = Enc k v ∧ cc_schswch (in_cc i) = Some a
    ∧ is_Some (BTKeyMap_entry (client_binCC i))
    ∧ res = argmin_result (ss_oneHot a) k v (GetSlots (in_c i))
              (GetSlots (in_c i)).

(** What a successful client run leaves behind. *)
Definition client_world (env : Env) (modulus_LWE : Z) (i : ClientInputs)
    (res : Ciphertext) (w : World) : World :=
  mkWorld
    (if can_write env (DATAFOLDER +:+ cipherArgminLocation)
     then <[DATAFOLDER +:+ cipherArgminLocation := BlobOf (ACiphertext res)]>
            (files w)
     else files w)
    (in_multKeys i) [] (in_rotKeys i) []
    (trace w ++ client_events env modulus_LWE i res).

(** ** The objects of the server *)

Definition server_params
    (ringDim batchSize multDepth scaleModSize firstModSize : Z) : CCParams :=
  mkCCParams (Some multDepth) (Some HEStd_NotSet) (Some ringDim)
    (Some batchSize) (Some scaleModSize) (Some firstModSize)
    (Some FLEXIBLEAUTO).

Definition server_features : list PKESchemeFeature :=
  [PKE; KEYSWITCH; LEVELEDSHE; ADVANCEDSHE; FHE; SCHEMESWITCH].

Definition server_setup (batchSize logQ_LWE : Z) (oneHot : bool)
  : SchSwchSetup :=
  mkSchSwchSetup HEStd_NotSet TOY false logQ_LWE false batchSize batchSize
    true oneHot false [27; 0; 0; 1; 0].

Definition server_binCC (env : Env) (logQ_LWE : Z) : BinFHEContext :=
  mkBinCC TOY false logQ_LWE (gen_beta env) (gen_baseG env)
    (Some (gen_BTKey env))
    (gen_BTKeyMap env).

Definition server_swk (env : Env) : Ciphertext :=
  SwkFC (gen_key env) (gen_lwesk env).

Definition server_CC (env : Env)
    (ringDim batchSize multDepth scaleModSize firstModSize logQ_LWE : Z)
    (oneHot : bool) : CryptoContext :=
  mkCC (server_params ringDim batchSize multDepth scaleModSize firstModSize)
    server_features (Some (server_setup batchSize logQ_LWE oneHot))
    (Some (server_binCC env logQ_LWE)) (Some (server_swk env)) None.

Definition server_KP (env : Env) : KeyPair :=
  mkKeyPair (PK (gen_key env)) (SK (gen_key env)).

Definition sample_vector : list Q := [1; 2; 3; 4]%Q.

Definition server_C (env : Env) (batchSize : Z) : Ciphertext :=
  Enc (gen_key env)
    (sample_vector ++ replicate (Z.to_nat batchSize - 4) (0%Q)).

(** ** The blobs of the server, in the order they are written *)

Definition BT_packs (e : N * RingGSWBTKey)
  : list (string * Artifact * bool) :=
  [ (refreshKeyLocation e.1, ARingGSWACCKey (BSkey e.2), true);
    (ksKeyLocation e.1, ALWESwitchingKey (KSkey e.2), true) ].

Definition BT_events (e : N * RingGSWBTKey) : list Event :=
  [ EPack (refreshKeyLocation e.1) (ARingGSWACCKey (BSkey e.2)) true;
    EPack (ksKeyLocation e.1) (ALWESwitchingKey (KSkey e.2)) true;
    ECout ("The BT map element for baseG = " +:+ pretty e.1
           +:+ " has been serialized.") ].

Definition BT_write (fs : gmap string Blob) (e : N * RingGSWBTKey)
  : gmap string Blob :=
  <[ksKeyLocation e.1 := BlobOf (ALWESwitchingKey (KSkey e.2))]>
    (<[refreshKeyLocation e.1 := BlobOf (ARingGSWACCKey (BSkey e.2))]> fs).

Definition BT_files (entries : list (N * RingGSWBTKey))
    (fs : gmap string Blob) : gmap string Blob :=
  foldl BT_write fs entries.

Definition BT_writable (env : Env) (entries : list (N * RingGSWBTKey))
  : Prop :=
  Forall (λ e, can_write env (refreshKeyLocation e.1) = true
               ∧ can_write env (ksKeyLocation e.1) = true) entries.

Section ServerRun.

Context (env : Env).
Context (ringDim batchSize multDepth scaleModSize firstModSize logQ_LWE : Z).
Context (oneHot : bool).
(** The registries of evaluation keys once the keys are generated. *)
Context (multKeys rotKeys : list EvalKey).

Let cc : CryptoContext :=
  server_CC env ringDim batchSize multDepth scaleModSize firstModSize
    logQ_LWE oneHot.

(** Context, public key, relinearization keys, rotation keys, inter-scheme
    switching key, initial ciphertext, secondary context, its refresh key,
    its switching key. *)
Definition server_fixed_packs : list (string * Artifact * bool) :=
  [ (DATAFOLDER +:+ ccLocation, ACryptoContext cc, true);
    (DATAFOLDER +:+ pubKeyLocation, APublicKey (publicKey (server_KP env)),
     true);
    (DATAFOLDER +:+ multKeyLocation, AEvalMultKeys multKeys, true);
    (DATAFOLDER +:+ rotKeyLocation, AEvalAutomorphismKeys rotKeys, true);
    (DATAFOLDER +:+ FHEWtoCKKSKeyLocation, ACiphertext (server_swk env),
     true);
    (DATAFOLDER +:+ cipherLocation, ACiphertext (server_C env batchSize),
     true);
    (DATAFOLDER +:+ binccLocation,
     ABinFHEContext (server_binCC env logQ_LWE), true);
    (DATAFOLDER +:+ btRkLocation, ARingGSWACCKey (BSkey (gen_BTKey env)),
     true);
    (DATAFOLDER +:+ btSwkLocation, ALWESwitchingKey (KSkey (gen_BTKey env)),
     true) ].

Definition server_packs : list (string * Artifact * bool) :=
  server_fixed_packs
  ++ flat_map BT_packs (GetBTKeyMap (server_binCC env logQ_LWE)).

Definition server_gen_events : list Event :=
  [ EGenCryptoContext
      (server_params ringDim batchSize multDepth scaleModSize firstModSize);
    EEnable PKE; EEnable KEYSWITCH; EEnable LEVELEDSHE; EEnable ADVANCEDSHE;
    EEnable FHE; EEnable SCHEMESWITCH;
    ECout "Cryptocontext generated";
    EKeyGen;
    ECout "Keypair generated";
    EEvalSchemeSwitchingSetup (server_setup batchSize logQ_LWE oneHot);
    EEvalSchemeSwitchingKeyGen (server_KP env) (LWESK (gen_lwesk env));
    ECout "Displaying data vector: ";
    EMakeCKKSPackedPlaintext sample_vector;
    ECout "Plaintext version of vector: ";
    ECout "Plaintexts have been generated from complex-double vectors";
    EEncrypt (PK (gen_key env)) sample_vector;
    ECout "Ciphertext have been generated from Plaintext";
    ECout stars;
    ECout "Scheme Switching Part 2: Data Serialization (server)";
    ECout stars ].

Definition server_pack_events : list Event :=
  [ EPack (DATAFOLDER +:+ ccLocation) (ACryptoContext cc) true;
    ECout "Cryptocontext serialized";
    EPack (DATAFOLDER +:+ pubKeyLocation)
      (APublicKey (publicKey (server_KP env))) true;
    ECout "Public key serialized";
    EOpenOut (DATAFOLDER +:+ multKeyLocation) true;
    EPack (DATAFOLDER +:+ multKeyLocation) (AEvalMultKeys multKeys) true;
    ECout "EvalMult and relinearization keys have been serialized";
    EOpenOut (DATAFOLDER +:+ rotKeyLocation) true;
    EPack (DATAFOLDER +:+ rotKeyLocation) (AEvalAutomorphismKeys rotKeys)
      true;
    ECout "Rotation keys have been serialized";
    EPack (DATAFOLDER +:+ FHEWtoCKKSKeyLocation)
      (ACiphertext (server_swk env)) true;
    EPack (DATAFOLDER +:+ cipherLocation)
      (ACiphertext (server_C env batchSize)) true;
    EPack (DATAFOLDER +:+ binccLocation)
      (ABinFHEContext (server_binCC env logQ_LWE)) true;
    ECout "The binfhe cryptocontext has been serialized.";
    EPack (DATAFOLDER +:+ btRkLocation)
      (ARingGSWACCKey (BSkey (gen_BTKey env))) true;
    ECout "The refreshing key has been serialized.";
    EPack (DATAFOLDER +:+ btSwkLocation)
      (ALWESwitchingKey (KSkey (gen_BTKey env))) true;
    ECout "The key switching key has been serialized." ].

Definition server_events : list Event :=
  server_gen_events ++ server_pack_events
  ++ flat_map BT_events (GetBTKeyMap (server_binCC env logQ_LWE)).

(** The directory after the server has written everything. *)
Definition server_files (fs : gmap string Blob) : gmap string Blob :=
  BT_files (GetBTKeyMap (server_binCC env logQ_LWE))
    (<[DATAFOLDER +:+ btSwkLocation :=
         BlobOf (ALWESwitchingKey (KSkey (gen_BTKey env)))]>
    (<[DATAFOLDER +:+ btRkLocation :=
         BlobOf (ARingGSWACCKey (BSkey (gen_BTKey env)))]>
    (<[DATAFOLDER +:+ binccLocation :=
         BlobOf (ABinFHEContext (bin_serialized (server_binCC env logQ_LWE)))]>
    (<[DATAFOLDER +:+ cipherLocation :=
         BlobOf (ACiphertext (server_C env batchSize))]>
    (<[DATAFOLDER +:+ FHEWtoCKKSKeyLocation :=
         BlobOf (ACiphertext (server_swk env))]>
    (<[DATAFOLDER +:+ rotKeyLocation :=
         BlobOf (AEvalAutomorphismKeys rotKeys)]>
    (<[DATAFOLDER +:+ rotKeyLocation := BlobEmpty]>
    (<[DATAFOLDER +:+ multKeyLocation := BlobOf (AEvalMultKeys multKeys)]>
    (<[DATAFOLDER +:+ multKeyLocation := BlobEmpty]>
    (<[DATAFOLDER +:+ pubKeyLocation :=
         BlobOf (APublicKey (publicKey (server_KP env)))]>
    (<[DATAFOLDER +:+ ccLocation :=
         BlobOf (ACryptoContext (cc_serialized cc))]> fs))))))))))).

(** Every write of the server succeeds, and the sample vector fits. *)
Definition server_ok : Prop :=
  (4 ≤ Z.to_nat batchSize)%nat
  ∧ can_write env (DATAFOLDER +:+ ccLocation) = true
  ∧ can_write env (DATAFOLDER +:+ pubKeyLocation) = true
  ∧ can_write env (DATAFOLDER +:+ multKeyLocation) = true
  ∧ ser_multKey_ok env = true
  ∧ can_write env (DATAFOLDER +:+ rotKeyLocation) = true
  ∧ ser_rotKey_ok env = true
  ∧ can_write env (DATAFOLDER +:+ FHEWtoCKKSKeyLocation) = true
  ∧ can_write env (DATAFOLDER +:+ cipherLocation) = true
  ∧ can_write env (DATAFOLDER +:+ binccLocation) = true
  ∧ can_write env (DATAFOLDER +:+ btRkLocation) = true
  ∧ can_write env (DATAFOLDER +:+ btSwkLocation) = true
  ∧ BT_writable env (GetBTKeyMap (server_binCC env logQ_LWE)).

End ServerRun.

(** The world a successful run of the server leaves behind. *)
Definition server_world (env : Env)
    (ringDim batchSize multDepth scaleModSize firstModSize logQ_LWE : Z)
    (oneHot : bool) (w : World) : World :=
  mkWorld
    (server_files env ringDim batchSize multDepth scaleModSize firstModSize
       logQ_LWE oneHot (evalMultKeys w ++ gen_evalMultKeys env)
       (evalAutomorphismKeys w ++ gen_evalAutomorphismKeys env) (files w))
    (evalMultKeys w ++ gen_evalMultKeys env)
    (evalSumKeys w ++ gen_evalSumKeys env)
    (evalAutomorphismKeys w ++ gen_evalAutomorphismKeys env)
    (allContexts w
     ++ [mkCC (server_params ringDim batchSize multDepth scaleModSize
                 firstModSize) [] None None None None])
    (trace w
     ++ server_events env ringDim batchSize multDepth scaleModSize
          firstModSize logQ_LWE oneHot
          (evalMultKeys w ++ gen_evalMultKeys env)
          (evalAutomorphismKeys w ++ gen_evalAutomorphismKeys env)).

(** ** The events of the verifier *)

Definition verify_events (kp : KeyPair) (c : option Ciphertext)
  : list Event :=
  [ EUnpack (DATAFOLDER +:+ cipherArgminLocation)
      (match c with Some _ => true | None => false end);
    ECout "Deserialized all data from client on server";
    ECout stars;
    ECout "Part 5: Correctness verification";
    ECout stars;
    EDecrypt (secretKey kp) c ].

(** Marks the postcondition of a whole run, as opposed to the one of a
    statement followed by others. *)
Definition whole {A} (Q : Outcome A → World → Prop)
  : Outcome A → World → Prop := Q.

(** ** Statements about traces *)

Definition is_argmin (e : Event) : bool :=
  match e with
  | EEvalMinSchemeSwitching _ _ _ _ _ _ => true
  | _ => false
  end.

(** The arguments the server's setup passes on unchanged whatever it was
    called with. *)
Definition setup_constants (e : Event) : Prop :=
  match e with
  | EGenCryptoContext p => securityLevel p = Some HEStd_NotSet
  | EEvalSchemeSwitchingSetup a =>
      ss_sl a = HEStd_NotSet ∧ ss_slBin a = TOY ∧ ss_arbFunc a = false
  | _ => True
  end.

(** No private key is handed to [Serial]. *)
Definition packs_no_secret (e : Event) : Prop :=
  match e with
  | EPack _ (APrivateKey _) _ => False
  | _ => True
  end.

(** How the three roles may use a private key. *)
Definition server_setup_use (env : Env) (e : Event) : Prop :=
  packs_no_secret e
  ∧ (receives_secret e →
     ∃ lwesk, e = EEvalSchemeSwitchingKeyGen (server_KP env) lwesk).

Definition client_use (e : Event) : Prop := ¬ receives_secret e.

Definition verifier_use (kp : KeyPair) (e : Event) : Prop :=
  is_pack e = false ∧ ¬ is_encrypt e
  ∧ (receives_secret e → ∃ c, e = EDecrypt (secretKey kp) c).

Definition run_use (env : Env) (e : Event) : Prop :=
  packs_no_secret e
  ∧ (receives_secret e →
     (∃ lwesk, e = EEvalSchemeSwitchingKeyGen (server_KP env) lwesk)
     ∨ (∃ c, e = EDecrypt (secretKey (server_KP env)) c)).

(** Neither a decryption nor a change of length. *)
Definition no_verifier_call (e : Event) : Prop :=
  match e with
  | EDecrypt _ _ | ESetLength _ => False
  | _ => True
  end.

(** What the verifier of [main] is given. *)
Definition verifier_inputs (env : Env) (e : Event) : Prop :=
  match e with
  | EDecrypt sk _ => sk = secretKey (server_KP env)
  | ESetLength n => n = Z.of_nat (length sample_vector)
  | _ => True
  end.

(** The claims that fail, as they are stated. *)

(** Secret-key use "only for encryption and decryption". *)
Definition secret_only_encrypts_decrypts (l : list Event) : Prop :=
  ∀ e, e ∈ l → receives_secret e → is_encrypt e ∨ is_decrypt e.

(** Every base written by the server is in the client's map. *)
Definition every_base_loaded (env : Env) (l : list Event) : Prop :=
  ∀ b k, gen_BTKeyMap env !! b = Some k →
    ∃ bin, attached_binCC l = Some bin ∧ bin_BTKeyMap bin !! b = Some k.

(** The default bundle is the pair of the dedicated blobs. *)
Definition default_bundle_from_default_blobs (fs : gmap string Blob)
    (l : list Event) : Prop :=
  ∃ rk0 ks0,
    read_blob asRingGSWACCKey (DATAFOLDER +:+ btRkLocation) fs = Some rk0
    ∧ read_blob asLWESwitchingKey (DATAFOLDER +:+ btSwkLocation) fs
      = Some ks0
    ∧ default_loads l = [mkBTKey rk0 ks0].

(** The default bundle is loaded before any entry of the map. *)
Definition default_bundle_loaded_first (l : list Event) : Prop :=
  ∃ i k, l !! i = Some (EBTKeyLoad k)
    ∧ ∀ j b k', l !! j = Some (EBTKeyMapLoadSingleElement b k') →
        (i < j)%nat.

Definition is_default_load (e : Event) : bool :=
  match e with EBTKeyLoad _ => true | _ => false end.

(** The events after the first call of [Serial] that failed. *)
Definition is_failure (e : Event) : bool :=
  match e with
  | EPack _ _ false | EUnpack _ false | EOpenOut _ false | EOpenIn _ false =>
      true
  | _ => false
  end.

Fixpoint after_failure (l : list Event) : list Event :=
  match l with
  | [] => []
  | e :: r => if is_failure e then r else after_failure r
  end.

Definition diagnostics (l : list Event) : list Event :=
  filter (λ e, is_diagnostic e = true) l.

(** ** Concrete environments *)

Definition mk_env (can_write : string → bool) (default : RingGSWBTKey)
    (BTKeyMap : gmap N RingGSWBTKey) : Env :=
  mkEnv can_write true true 7%N 9%N [EvalKeyOf 7%N 0] []
    [EvalKeyOf 7%N 1; EvalKeyOf 7%N 2] default BTKeyMap 128 262144%N [].

Definition key_a : RingGSWBTKey := mkBTKey (ACCKey 1%N) (LWESwk 2%N).
Definition key_b : RingGSWBTKey := mkBTKey (ACCKey 3%N) (LWESwk 4%N).

(** Everything can be written; one base, the one the client knows. *)
Definition env_ok : Env :=
  mk_env (λ _, true) key_a {[ client_baseG := key_a ]}.

(** The server's map holds a second base, [1 << 27]. *)
Definition env_two_bases : Env :=
  mk_env (λ _, true) key_a
    (<[ 134217728%N := key_b ]> {[ client_baseG := key_a ]}).

(** The result ciphertext of the client cannot be written. *)
Definition env_result_unwritable : Env :=
  mk_env (λ path,
            negb (String.eqb path (DATAFOLDER +:+ cipherArgminLocation)))
    key_a {[ client_baseG := key_a ]}.

(** The arguments [main] calls the server with. *)
Definition main_setup (env : Env) : M (CryptoContext * KeyPair * Z) :=
  serverSetupAndWrite env 64 4 15 50 60 25 true.

(** The world the client of [main] starts from. *)
Definition handoff (env : Env) : World := (main_setup env world0).2.

(** The world the verifier of [main] starts from (the separators printed
    by [main] between the roles left out). *)
Definition returned (env : Env) : World :=
  (clientProcess env 33554432 (handoff env)).2.

(** The same, the blob of the rotation keys lost on the way. *)
Definition handoff_without_rotation_keys : World :=
  let w := handoff env_ok in
  mkWorld (delete (DATAFOLDER +:+ rotKeyLocation) (files w))
    (evalMultKeys w) (evalSumKeys w) (evalAutomorphismKeys w)
    (allContexts w) (trace w).

(** The [n]-th character of a string, counted from its end. *)
Definition char_from_end (n : nat) (s : string) : option Ascii.ascii :=
  rev (String.list_ascii_of_string s) !! n.

(** The fixed blob names of the server. *)
Definition fixed_locations : list string :=
  [ DATAFOLDER +:+ ccLocation; DATAFOLDER +:+ pubKeyLocation;
    DATAFOLDER +:+ multKeyLocation; DATAFOLDER +:+ rotKeyLocation;
    DATAFOLDER +:+ FHEWtoCKKSKeyLocation; DATAFOLDER +:+ cipherLocation;
    DATAFOLDER +:+ binccLocation; DATAFOLDER +:+ btRkLocation;
    DATAFOLDER +:+ btSwkLocation; DATAFOLDER +:+ cipherArgminLocation ].

(** What the client reads from the directory the server has written, the
    entry of the client's base being [k]. *)
Definition handoff_inputs (env : Env)
    (ringDim batchSize multDepth scaleModSize firstModSize logQ_LWE : Z)
    (oneHot : bool) (multKeys rotKeys : list EvalKey) (k : RingGSWBTKey)
  : ClientInputs :=
  mkClientInputs
    (cc_serialized
       (server_CC env ringDim batchSize multDepth scaleModSize firstModSize
          logQ_LWE oneHot))
    (publicKey (server_KP env)) multKeys rotKeys
    (bin_serialized (server_binCC env logQ_LWE))
    (BSkey (gen_BTKey env)) (KSkey (gen_BTKey env))
    (BSkey k) (KSkey k) (server_swk env) (server_C env batchSize).

(** ** Further vocabulary *)

(** A run that stops at the first failed call of [Serial]: events without
    failure, the failed call, one diagnostic, exit with status 1. *)
Definition fail_fast (l : list Event) : Prop :=
  ∃ pre f s,
    l = pre ++ [f; ECerr s; EExit 1]
    ∧ is_failure f = true
    ∧ Forall (λ e, is_failure e = false) pre.

(** A call that evaluates on ciphertexts. *)
Definition is_eval (e : Event) : bool :=
  match e with
  | EEvalCompareSwitchPrecompute _ _ _ _
  | EEvalMinSchemeSwitching _ _ _ _ _ _ => true
  | _ => false
  end.

(** The pair read for a base, when both of its blobs can be read. *)
Definition base_pair (fs : gmap string Blob) (baseG : N)
  : option RingGSWBTKey :=
  rk ← read_blob asRingGSWACCKey (refreshKeyLocation baseG) fs;
  ks ← read_blob asLWESwitchingKey (ksKeyLocation baseG) fs;
  Some (mkBTKey rk ks).

(** The fixed blob names the server writes. *)
Definition server_locations : list string :=
  [ DATAFOLDER +:+ ccLocation; DATAFOLDER +:+ pubKeyLocation;
    DATAFOLDER +:+ multKeyLocation; DATAFOLDER +:+ rotKeyLocation;
    DATAFOLDER +:+ FHEWtoCKKSKeyLocation; DATAFOLDER +:+ cipherLocation;
    DATAFOLDER +:+ binccLocation; DATAFOLDER +:+ btRkLocation;
    DATAFOLDER +:+ btSwkLocation ].

(** The server's map holds base [1 << 27] only. *)
Definition env_no_client_base : Env :=
  mk_env (λ _, true) key_a {[ 134217728%N := key_b ]}.

(** The switching key of base [1 << 18] cannot be written. *)
Definition env_ksKey_unwritable : Env :=
  mk_env (λ path, negb (String.eqb path (ksKeyLocation client_baseG)))
    key_a {[ client_baseG := key_a ]}.

(** * Reasoning about runs *)

Section WP.
Context {A : Type} (w : World) (Q : Outcome A → World → Prop).

Lemma wp_ret (a : A) : Q (Done a) w → wp (mret a) w Q.
Proof. done. Qed.

Lemma wp_bind {B} (m : M B) (f : B → M A) :
  wp m w (λ o w1,
    match o with
    | Done b => wp (f b) w1 Q
    | Exited c => Q (Exited c) w1
    | Thrown s => Q (Thrown s) w1
    end) →
  wp (m ≫= f) w Q.
Proof.
  unfold wp, mbind, M_bind. by destruct (m w) as [[b|c|s] w1].
Qed.

Lemma wp_exit c : Q (Exited c) (log (EExit c) w) → wp (exit c) w Q.
Proof. done. Qed.

Lemma wp_throw s : Q (Thrown s) w → wp (throw s) w Q.
Proof. done. Qed.

End WP.

Section WPunit.
Context (w : World) (Q : Outcome unit → World → Prop).

Lemma wp_emit e : Q (Done tt) (log e w) → wp (emit e) w Q.
Proof. done. Qed.

Lemma wp_set_files f :
  Q (Done tt) (mkWorld f (evalMultKeys w) (evalSumKeys w)
                 (evalAutomorphismKeys w) (allContexts w) (trace w)) →
  wp (set_files f) w Q.
Proof. done. Qed.

Lemma wp_set_evalMultKeys ks :
  Q (Done tt) (mkWorld (files w) ks (evalSumKeys w)
                 (evalAutomorphismKeys w) (allContexts w) (trace w)) →
  wp (set_evalMultKeys ks) w Q.
Proof. done. Qed.

Lemma wp_set_evalSumKeys ks :
  Q (Done tt) (mkWorld (files w) (evalMultKeys w) ks
                 (evalAutomorphismKeys w) (allContexts w) (trace w)) →
  wp (set_evalSumKeys ks) w Q.
Proof. done. Qed.

Lemma wp_set_evalAutomorphismKeys ks :
  Q (Done tt) (mkWorld (files w) (evalMultKeys w) (evalSumKeys w)
                 ks (allContexts w) (trace w)) →
  wp (set_evalAutomorphismKeys ks) w Q.
Proof. done. Qed.

Lemma wp_set_allContexts cs :
  Q (Done tt) (mkWorld (files w) (evalMultKeys w) (evalSumKeys w)
                 (evalAutomorphismKeys w) cs (trace w)) →
  wp (set_allContexts cs) w Q.
Proof. done. Qed.

End WPunit.

Lemma wp_get_world w (Q : Outcome World → World → Prop) :
  Q (Done w) w → wp get_world w Q.
Proof. done. Qed.

(** Reading a run off [wp]. *)
Lemma wp_run {A} (m : M A) w (Q : Outcome A → World → Prop) o w' :
  wp m w Q → m w = (o, w') → Q o w'.
Proof. unfold wp. intros H E. by rewrite E in H. Qed.

Create HintDb ops discriminated.
#[global] Hint Unfold ClearEvalMultKeys ClearEvalSumKeys
  ClearEvalAutomorphismKeys ReleaseAllContexts or_exit DeserializeFromFile
  ifstream_open DeserializeEvalMultKey DeserializeEvalAutomorphismKey
  BTKeyLoad BTKeyMapLoadSingleElement SetBinCCForSchemeSwitch SetSwkFC
  EvalCompareSwitchPrecompute EvalMinSchemeSwitching SerializeToFile
  ofstream_open SerializeEvalMultKey SerializeEvalAutomorphismKey
  GenCryptoContext Enable KeyGen EvalSchemeSwitchingSetup
  EvalSchemeSwitchingKeyGen GetBinCCForSchemeSwitch GetSwkFC GetRefreshKey
  GetSwitchKey MakeCKKSPackedPlaintext Encrypt Decrypt SetLength
  demarcate cout cerr when_ GetBeta : ops.

Ltac wp_reduce :=
  cbv beta iota zeta;
  cbn [files evalMultKeys evalSumKeys evalAutomorphismKeys allContexts trace
       log negb fst snd cc_params cc_enabled cc_schswch cc_binCC cc_swkFC
       cc_precompute bin_paramset bin_arbFunc bin_logQ bin_beta bin_baseG
       bin_BTKey
       bin_BTKeyMap publicKey secretKey BSkey KSkey mbind option_bind
       load_BTKeyMap argmin_ciphertexts lookup list_lookup
       ss_sl ss_slBin ss_arbFunc ss_logQ ss_arg5 ss_numSlots ss_numValues
       ss_arg8 ss_oneHot ss_arg10 ss_rest
       multiplicativeDepth securityLevel ringDim batchSize scalingModSize
       firstModSize scalingTechnique CCParams_default SetMultiplicativeDepth
       SetSecurityLevel SetRingDim SetBatchSize SetScalingModSize
       SetFirstModSize SetScalingTechnique slots_of length].

Ltac features_nf :=
  repeat match goal with
  | |- context [enable_feature ?f ?l] =>
      let r := eval vm_compute in (enable_feature f l) in
      change (enable_feature f l) with r
  end.

Ltac wp_step :=
  wp_reduce; features_nf;
  lazymatch goal with
  | |- wp (mret _) _ _ => apply wp_ret
  | |- wp (mbind _ _) _ _ => apply wp_bind
  | |- wp (emit _) _ _ => apply wp_emit
  | |- wp (exit _) _ _ => apply wp_exit
  | |- wp (throw _) _ _ => apply wp_throw
  | |- wp get_world _ _ => apply wp_get_world
  | |- wp (set_files _) _ _ => apply wp_set_files
  | |- wp (set_evalMultKeys _) _ _ => apply wp_set_evalMultKeys
  | |- wp (set_evalSumKeys _) _ _ => apply wp_set_evalSumKeys
  | |- wp (set_evalAutomorphismKeys _) _ _ =>
      apply wp_set_evalAutomorphismKeys
  | |- wp (set_allContexts _) _ _ => apply wp_set_allContexts
  | |- wp (match ?x with _ => _ end) _ _ => destruct x eqn:?
  | |- wp _ _ _ => progress autounfold with ops
  end.

(** Normal form of a trace: a right-nested list appended to the initial
    trace. *)
Ltac trace_nf := cbn [trace log]; rewrite <- ?app_assoc; cbn [app].



Lemma wp_intro {A} (m : M A) w (Q : Outcome A → World → Prop) :
  (∀ o w', m w = (o, w') → Q o w') → wp m w Q.
Proof. intros H. unfold wp. apply H. by destruct (m w). Qed.

Lemma wp_of_run {A} (m : M A) w (Q : Outcome A → World → Prop) o w' :
  m w = (o, w') → Q o w' → wp m w Q.
Proof. unfold wp. by intros ->. Qed.

Lemma wp_Done_inv {A} (m : M A) w (P : A → World → Prop) a w' :
  wp m w (λ o w1, ∀ a, o = Done a → P a w1) →
  m w = (Done a, w') → P a w'.
Proof. unfold wp. intros H Hrun. rewrite Hrun in H. by apply H. Qed.

Lemma wp_Done_intro {A} (m : M A) w a w' :
  wp m w (λ o w1, o = Done a ∧ w1 = w') → m w = (Done a, w').
Proof. unfold wp. destruct (m w) as [o w1]. cbn. by intros [-> ->]. Qed.

Ltac world_nf :=
  try unfold log at 1;
  cbn [files evalMultKeys evalSumKeys evalAutomorphismKeys allContexts trace
       log flat_map BT_events BT_files foldl BT_write fst snd serialized].

(** The loop of the server over the bootstrapping key map. *)
Lemma serialize_BTKeyMap_Done env entries w u w' :
  serialize_BTKeyMap env entries w = (Done u, w') →
  BT_writable env entries
  ∧ w' = mkWorld (BT_files entries (files w)) (evalMultKeys w)
           (evalSumKeys w) (evalAutomorphismKeys w) (allContexts w)
           (trace w ++ flat_map BT_events entries).
Proof.
  revert w u w'. induction entries as [|[index thekey] rest IH]; intros w u w'.
  - intros [= _ <-]. split; [constructor|].
    destruct w; cbn. by rewrite app_nil_r.
  - apply (wp_Done_inv _ _ (λ _ w', BT_writable env ((index, thekey) :: rest)
        ∧ w' = mkWorld (BT_files ((index, thekey) :: rest) (files w))
                 (evalMultKeys w) (evalSumKeys w) (evalAutomorphismKeys w)
                 (allContexts w)
                 (trace w ++ flat_map BT_events ((index, thekey) :: rest)))).
    cbn [serialize_BTKeyMap].
    repeat wp_step; wp_reduce; try (intros; discriminate).
    apply wp_intro. intros o w1 Hrun [] ->.
    apply IH in Hrun as [Hrest ->]. split.
    + constructor; [done|exact Hrest].
    + world_nf. f_equal. by rewrite <- !app_assoc.
Qed.

Lemma serialize_BTKeyMap_run env entries w :
  BT_writable env entries →
  serialize_BTKeyMap env entries w
  = (Done tt,
     mkWorld (BT_files entries (files w)) (evalMultKeys w)
       (evalSumKeys w) (evalAutomorphismKeys w) (allContexts w)
       (trace w ++ flat_map BT_events entries)).
Proof.
  revert w. induction entries as [|[index thekey] rest IH]; intros w Hw.
  - destruct w; cbn. by rewrite app_nil_r.
  - inversion Hw as [|? ? [Hr Hk] Hrest]; subst. cbn [fst snd] in Hr, Hk.
    apply wp_Done_intro. cbn [serialize_BTKeyMap].
    autounfold with ops. rewrite Hr, Hk. repeat wp_step.
    eapply wp_of_run; [by apply IH|]. split; [done|].
    world_nf. f_equal. by rewrite <- !app_assoc.
Qed.

Section ServerLemmas.

Context (env : Env).
Context (ringDim batchSize multDepth scaleModSize firstModSize logQ_LWE : Z).
Context (oneHot : bool).

Lemma serverSetupAndWrite_Done w r w' :
  serverSetupAndWrite env ringDim batchSize multDepth scaleModSize
    firstModSize logQ_LWE oneHot w = (Done r, w') →
  server_ok env batchSize logQ_LWE
  ∧ r = (server_CC env ringDim batchSize multDepth scaleModSize firstModSize
           logQ_LWE oneHot, server_KP env, 4)
  ∧ w' = server_world env ringDim batchSize multDepth scaleModSize
           firstModSize logQ_LWE oneHot w.
Proof.
  apply (wp_Done_inv _ _ (λ r w',
    server_ok env batchSize logQ_LWE
    ∧ r = (server_CC env ringDim batchSize multDepth scaleModSize
             firstModSize logQ_LWE oneHot, server_KP env, 4)
    ∧ w' = server_world env ringDim batchSize multDepth scaleModSize
             firstModSize logQ_LWE oneHot w)).
  unfold serverSetupAndWrite.
  repeat wp_step; wp_reduce; try (intros; discriminate).
  apply wp_intro. intros o w1 Hrun.
  destruct o; [|done..]. apply serialize_BTKeyMap_Done in Hrun as [HBT ->].
  wp_step. intros ? [= <-].
  split; [|split].
  - unfold server_ok. repeat split; assumption.
  - reflexivity.
  - unfold server_world, server_files, server_events, server_gen_events,
      server_pack_events. world_nf. f_equal. trace_nf. reflexivity.
Qed.

Lemma serverSetupAndWrite_run w :
  server_ok env batchSize logQ_LWE →
  serverSetupAndWrite env ringDim batchSize multDepth scaleModSize
    firstModSize logQ_LWE oneHot w
  = (Done (server_CC env ringDim batchSize multDepth scaleModSize
             firstModSize logQ_LWE oneHot, server_KP env, 4),
     server_world env ringDim batchSize multDepth scaleModSize
       firstModSize logQ_LWE oneHot w).
Proof.
  intros (Hfit & ? & ? & ? & ? & ? & ? & ? & ? & ? & ? & ? & HBT).
  apply wp_Done_intro. unfold serverSetupAndWrite.
  repeat wp_step; wp_reduce; try (exfalso; congruence).
  eapply wp_of_run; [apply serialize_BTKeyMap_run; exact HBT|].
  wp_step. split; [reflexivity|].
  unfold server_world, server_files, server_events, server_gen_events,
    server_pack_events. world_nf. f_equal. trace_nf. reflexivity.
Qed.

End ServerLemmas.

Lemma read_blob_None {T} (proj : Artifact → option T) path fs :
  fs !! path = None → read_blob proj path fs = None.
Proof. unfold read_blob. by intros ->. Qed.

Lemma clientProcess_run env modulus_LWE w i res :
  client_reads (files w) i →
  client_result i res →
  uint64 (2 * bin_beta (in_binCC i)) ≠ 0 →
  clientProcess env modulus_LWE w
  = (Done tt, client_world env modulus_LWE i res w).
Proof.
  intros (? & ? & ? & ? & ? & ? & ? & ? & ? & ? & ?)
    (k & v & a & ? & ? & [entry Hentry] & ->) ?.
  unfold client_binCC in Hentry.
  apply wp_Done_intro. unfold clientProcess.
  change (N.shiftl 1 18) with client_baseG.
  repeat wp_step; wp_reduce;
    try match goal with H : _ !! _ = None |- _ =>
      pose proof (read_blob_None asEvalMultKeys _ _ H);
      pose proof (read_blob_None asEvalAutomorphismKeys _ _ H) end;
    try (exfalso; congruence).
  all: split; [reflexivity|].
  all: unfold client_world, client_events, client_prologue,
         client_load_events, client_eval_events, client_pLWE, client_binCC.
  all: match goal with H : can_write _ _ = _ |- _ => rewrite H end.
  all: match goal with H : in_c _ = Enc _ _ |- _ => rewrite H in * end.
  all: simplify_eq; world_nf; cbn [app]; f_equal; trace_nf; reflexivity.
Qed.


Lemma clientProcess_Done env modulus_LWE w u w' :
  clientProcess env modulus_LWE w = (Done u, w') →
  ∃ i res,
    client_reads (files w) i
    ∧ client_result i res
    ∧ uint64 (2 * bin_beta (in_binCC i)) ≠ 0
    ∧ w' = client_world env modulus_LWE i res w.
Proof.
  intros Hrun.
  assert (∃ i res, client_reads (files w) i ∧ client_result i res
                   ∧ uint64 (2 * bin_beta (in_binCC i)) ≠ 0)
    as (i & res & Hreads & Hres & Hbeta).
  { revert Hrun.
    apply (wp_Done_inv _ _ (λ _ _,
      ∃ i res, client_reads (files w) i ∧ client_result i res
               ∧ uint64 (2 * bin_beta (in_binCC i)) ≠ 0)).
    unfold clientProcess. change (N.shiftl 1 18) with client_baseG.
    repeat wp_step; wp_reduce; intros ? ?; try discriminate.
    all: eexists (mkClientInputs _ _ _ _ _ _ _ _ _ _ _), _.
    all: split;
      [ unfold client_reads;
        cbn [in_cc in_pk in_multKeys in_rotKeys in_binCC in_rk0 in_ks0 in_rk
             in_ks in_swk in_c];
        repeat split; eassumption |].
    all: split;
      [ eexists _, _, _; cbn [in_cc in_c];
        split; [reflexivity|]; split; [eassumption|];
        split; [|reflexivity];
        eexists; unfold client_binCC; cbn [in_binCC in_rk in_ks];
        eassumption |].
    all: cbn [in_binCC]; assumption. }
  exists i, res. do 3 (split; [assumption|]).
  rewrite (clientProcess_run env modulus_LWE w i res Hreads Hres Hbeta)
    in Hrun.
  apply (f_equal snd) in Hrun. symmetry. exact Hrun.
Qed.

(** The verifier, whatever the directory holds. *)
Lemma serverVerification_run env cc kp vectorSize w :
  serverVerification env cc kp vectorSize w
  = match read_blob asCiphertext (DATAFOLDER +:+ cipherArgminLocation)
            (files w) with
    | None =>
        (Thrown "ciphertext passed to Decrypt is empty",
         logs (verify_events kp None) w)
    | Some c =>
        (if decide (vectorSize < 0)%Z then Thrown "std::length_error"
         else Done (resize (Z.to_nat vectorSize) (0%Q)
                      (decrypted env (secretKey kp) c)),
         logs (verify_events kp (Some c) ++ [ESetLength vectorSize]) w)
    end.
Proof.
  assert (∀ (m : M Plaintext) r, wp m w (λ o w', (o, w') = r) → m w = r)
    as Hwp.
  { intros m r. unfold wp. by destruct (m w). }
  apply Hwp. unfold serverVerification.
  repeat wp_step; wp_reduce.
  all: unfold logs, verify_events; world_nf; trace_nf; reflexivity.
Qed.

(** ** Invariants of every event of a run *)

Section Emits.
Context (P : Event → Prop).

Lemma emits_ret {A} (a : A) : emits P (mret a).
Proof. intros w. exists []. cbn. by rewrite app_nil_r. Qed.

Lemma emits_bind {A B} (m : M A) (f : A → M B) :
  emits P m → (∀ a, emits P (f a)) → emits P (m ≫= f).
Proof.
  intros Hm Hf w. destruct (Hm w) as (l1 & E1 & F1).
  unfold mbind, M_bind. destruct (m w) as [[a|c|s] w1]; cbn in *.
  - destruct (Hf a w1) as (l2 & E2 & F2). exists (l1 ++ l2).
    rewrite E2, E1, app_assoc. split; [done|]. by apply Forall_app.
  - by exists l1.
  - by exists l1.
Qed.

Lemma emits_emit e : P e → emits P (emit e).
Proof. intros He w. exists [e]. cbn. split; [done|]. by constructor. Qed.

Lemma emits_exit {A} c : P (EExit c) → emits P (@exit A c).
Proof.
  intros He w. exists [EExit c]. cbn. split; [done|]. by constructor.
Qed.

Lemma emits_throw {A} s : emits P (@throw A s).
Proof. intros w. exists []. cbn. by rewrite app_nil_r. Qed.

Lemma emits_silent {A} (m : M A) :
  (∀ w, trace (m w).2 = trace w) → emits P m.
Proof. intros H w. exists []. by rewrite H, app_nil_r. Qed.

Lemma emits_when b m : emits P m → emits P (when_ b m).
Proof. intros H. destruct b; [done|]. apply emits_ret. Qed.

End Emits.

Lemma emits_bind_run {A B} (P : Event → Prop) (R : A → Prop) (m : M A)
    (f : A → M B) :
  emits P m → (∀ w a w', m w = (Done a, w') → R a) →
  (∀ a, R a → emits P (f a)) → emits P (m ≫= f).
Proof.
  intros Hm HR Hf w. destruct (Hm w) as (l1 & E1 & F1).
  pose proof (HR w) as HRw.
  unfold mbind, M_bind. destruct (m w) as [[a|c|s] w1]; cbn in *.
  - destruct (Hf a (HRw _ _ eq_refl) w1) as (l2 & E2 & F2).
    exists (l1 ++ l2). rewrite E2, E1, app_assoc. split; [done|].
    by apply Forall_app.
  - by exists l1.
  - by exists l1.
Qed.

Lemma emits_weaken {A} (P Q : Event → Prop) (m : M A) :
  (∀ e, P e → Q e) → emits P m → emits Q m.
Proof.
  intros HPQ Hm w. destruct (Hm w) as (l & E & F).
  exists l. split; [done|]. by eapply Forall_impl.
Qed.

(** The condition on one event. *)
Ltac emits_side :=
  cbn; try first [ done | by intuition eauto | by intuition discriminate ].

(** One step of a proof by [emits]; an operation of the engine is
    unfolded when it is met. *)
Ltac emits_step :=
  lazymatch goal with
  | |- emits _ (mret _) => apply emits_ret
  | |- emits _ (mbind _ (KeyGen ?env _)) =>
      apply (emits_bind_run _ (λ kp, kp = server_KP env));
      [| intros ? ? ?; cbv [KeyGen mbind M_bind mret M_ret emit];
         by intros [= <- _]
       | intros ? ->]
  | |- emits _ (mbind _ _) => apply emits_bind; [| intros ?]
  | |- emits _ (emit _) => apply emits_emit; emits_side
  | |- emits _ (exit _) => apply emits_exit; emits_side
  | |- emits _ (throw _) => apply emits_throw
  | |- emits _ (when_ _ _) => apply emits_when
  | |- emits _ get_world => apply emits_silent; done
  | |- emits _ (set_files _) => apply emits_silent; done
  | |- emits _ (set_evalMultKeys _) => apply emits_silent; done
  | |- emits _ (set_evalSumKeys _) => apply emits_silent; done
  | |- emits _ (set_evalAutomorphismKeys _) => apply emits_silent; done
  | |- emits _ (set_allContexts _) => apply emits_silent; done
  | |- emits _ (load_BTKeyMap _ _ _ _) => progress cbn [load_BTKeyMap]
  | |- emits _ (match ?x with _ => _ end) => destruct x
  | |- emits _ _ => progress autounfold with ops
  end.

Ltac emits_auto := cbv zeta; repeat emits_step.

(** The loop of the server, by induction on the entries. *)
Ltac emits_loop :=
  lazymatch goal with
  | |- emits _ (serialize_BTKeyMap _ ?entries) =>
      let l := fresh "l" in
      let IH := fresh "IH" in
      generalize entries; intros l;
      induction l as [|[? ?] ? IH]; cbn [serialize_BTKeyMap];
      [ emits_auto | emits_auto; exact IH ]
  end.

(** A run only appends to the trace. *)
Lemma wp_of_emits {A} (P : Event → Prop) (m : M A) w
    (Q : Outcome A → World → Prop) :
  emits P m →
  (∀ o w' l, trace w' = trace w ++ l → Forall P l → Q o w') →
  wp m w Q.
Proof.
  intros Hm HQ. unfold wp. destruct (Hm w) as (l & E & F). by eapply HQ.
Qed.




(** One statement of the program: steps until what is left is run under
    the postcondition of the whole run again. *)
Ltac wp_stmt :=
  wp_step;
  repeat (wp_reduce;
          lazymatch goal with
          | |- wp _ _ (whole _) => fail
          | |- _ => wp_step
          end).

(** * The claims *)

(** ** C8 *)

(** C8. The client clears every process-wide registry (evaluation
    multiplication keys, evaluation sum keys, automorphism keys, the
    contexts of the factory) before it unpacks anything: in every run,
    whatever the directory holds, the first four events are the four
    clearings and every read of a blob comes after them. *)
Theorem C8_client_clears_registries_before_unpacking env modulus_LWE w :
  ∃ rest,
    trace (clientProcess env modulus_LWE w).2
    = trace w
      ++ [ EClearEvalMultKeys; EClearEvalSumKeys;
           EClearEvalAutomorphismKeys; EReleaseAllContexts ]
      ++ rest
    ∧ ∀ j e,
        ([ EClearEvalMultKeys; EClearEvalSumKeys;
           EClearEvalAutomorphismKeys; EReleaseAllContexts ] ++ rest) !! j
        = Some e →
        is_unpack e = true → (4 ≤ j)%nat.
Proof.
  cut (wp (clientProcess env modulus_LWE) w (whole (λ _ w',
         ∃ rest, trace w' = trace w ++ client_prologue ++ rest))).
  { unfold wp, whole. intros (rest & E). exists rest. split; [exact E|].
    intros j e Hj He.
    destruct j as [|[|[|[|j]]]]; cbn in Hj; simplify_eq; try lia;
      discriminate. }
  unfold clientProcess.
  do 4 wp_stmt.
  apply (wp_of_emits (λ _, True)).
  - emits_auto.
  - intros o w' l E _. exists l. rewrite E. trace_nf. reflexivity.
Qed.

(** ** C10 *)

(** C10. Whatever ring dimension, batch size, depth, modulus sizes, LWE
    modulus bits and one-hot flag the server's setup is called with, and
    whatever happens to its writes, the context is generated with security
    level [HEStd_NotSet] and the scheme switching is set up with
    [HEStd_NotSet], the preset [TOY] and the arbitrary-function flag
    [false]: both calls take place in every run, and no call of either
    kind carries other values. *)
Theorem C10_setup_fixes_security_preset_and_flag env
    ringDim batchSize multDepth scaleModSize firstModSize logQ_LWE oneHot w :
  ∃ p a rest,
    trace (serverSetupAndWrite env ringDim batchSize multDepth scaleModSize
             firstModSize logQ_LWE oneHot w).2
    = trace w
      ++ [ EGenCryptoContext p; EEnable PKE; EEnable KEYSWITCH;
           EEnable LEVELEDSHE; EEnable ADVANCEDSHE; EEnable FHE;
           EEnable SCHEMESWITCH; ECout "Cryptocontext generated"; EKeyGen;
           ECout "Keypair generated"; EEvalSchemeSwitchingSetup a ]
      ++ rest
    ∧ securityLevel p = Some HEStd_NotSet
    ∧ ss_sl a = HEStd_NotSet ∧ ss_slBin a = TOY ∧ ss_arbFunc a = false
    ∧ Forall setup_constants rest.
Proof.
  cut (wp (serverSetupAndWrite env ringDim batchSize multDepth scaleModSize
             firstModSize logQ_LWE oneHot) w (whole (λ _ w',
         ∃ rest,
           trace w'
           = trace w
             ++ firstn 11 (server_gen_events env ringDim batchSize multDepth
                             scaleModSize firstModSize logQ_LWE oneHot)
             ++ rest
           ∧ Forall setup_constants rest))).
  { unfold wp, whole. intros (rest & E & F).
    exists (server_params ringDim batchSize multDepth scaleModSize
              firstModSize),
      (server_setup batchSize logQ_LWE oneHot), rest.
    split; [exact E|]. by repeat split. }
  unfold serverSetupAndWrite.
  do 11 wp_stmt.
  apply (wp_of_emits setup_constants).
  - emits_auto. emits_loop.
  - intros o w' l E F. exists l. split; [|exact F].
    rewrite E. trace_nf. reflexivity.
Qed.

(** ** C3 *)

(** The iteration over the bootstrapping key map visits exactly the
    entries of the map, each once, by ascending base. *)
Lemma GetBTKeyMap_entries b i k :
  (i, k) ∈ GetBTKeyMap b ↔ bin_BTKeyMap b !! i = Some k.
Proof.
  unfold GetBTKeyMap. rewrite merge_sort_Permutation.
  apply elem_of_map_to_list.
Qed.

Lemma GetBTKeyMap_NoDup b : NoDup (GetBTKeyMap b).*1.
Proof.
  unfold GetBTKeyMap. rewrite merge_sort_Permutation.
  apply NoDup_fst_map_to_list.
Qed.

Lemma GetBTKeyMap_Sorted b : Sorted BTKeyMap_le (GetBTKeyMap b).
Proof.
  unfold GetBTKeyMap. apply Sorted_merge_sort.
  intros x y. unfold BTKeyMap_le. lia.
Qed.

Lemma packed_app l1 l2 : packed (l1 ++ l2) = packed l1 ++ packed l2.
Proof. apply omap_app. Qed.

Lemma packed_BT_events entries :
  packed (flat_map BT_events entries) = flat_map BT_packs entries.
Proof.
  induction entries as [|e rest IH]; [done|].
  cbn [flat_map]. rewrite packed_app, IH. reflexivity.
Qed.

(** C3. A run of the server's setup that returns has packed, in this
    order: the primary context, the public key, the relinearization keys,
    the rotation keys, the inter-scheme switching key, the initial
    ciphertext, the secondary context, the secondary context's refresh key,
    its switching key, and then, for each entry of the bootstrapping key
    map by ascending base, the entry's refresh key and switching key under
    names made of the base. *)
Theorem C3_server_packs_in_order env
    ringDim batchSize multDepth scaleModSize firstModSize logQ_LWE oneHot
    w r w' :
  serverSetupAndWrite env ringDim batchSize multDepth scaleModSize
    firstModSize logQ_LWE oneHot w = (Done r, w') →
  ∃ l,
    trace w' = trace w ++ l
    ∧ packed l
      = [ (DATAFOLDER +:+ ccLocation, ACryptoContext r.1.1, true);
          (DATAFOLDER +:+ pubKeyLocation, APublicKey (publicKey r.1.2),
           true);
          (DATAFOLDER +:+ multKeyLocation, AEvalMultKeys (evalMultKeys w'),
           true);
          (DATAFOLDER +:+ rotKeyLocation,
           AEvalAutomorphismKeys (evalAutomorphismKeys w'), true);
          (DATAFOLDER +:+ FHEWtoCKKSKeyLocation,
           ACiphertext (server_swk env), true);
          (DATAFOLDER +:+ cipherLocation,
           ACiphertext (server_C env batchSize), true);
          (DATAFOLDER +:+ binccLocation,
           ABinFHEContext (server_binCC env logQ_LWE), true);
          (DATAFOLDER +:+ btRkLocation,
           ARingGSWACCKey (BSkey (gen_BTKey env)), true);
          (DATAFOLDER +:+ btSwkLocation,
           ALWESwitchingKey (KSkey (gen_BTKey env)), true) ]
        ++ flat_map
             (λ e, [ (refreshKeyLocation e.1, ARingGSWACCKey (BSkey e.2),
                      true);
                     (ksKeyLocation e.1, ALWESwitchingKey (KSkey e.2),
                      true) ])
             (GetBTKeyMap (server_binCC env logQ_LWE))
    ∧ cc_swkFC r.1.1 = Some (server_swk env)
    ∧ cc_binCC r.1.1 = Some (server_binCC env logQ_LWE)
    ∧ bin_BTKey (server_binCC env logQ_LWE) = Some (gen_BTKey env)
    ∧ (∀ i k, (i, k) ∈ GetBTKeyMap (server_binCC env logQ_LWE)
              ↔ gen_BTKeyMap env !! i = Some k).
Proof.
  intros Hrun. apply serverSetupAndWrite_Done in Hrun as (_ & -> & ->).
  eexists. split; [reflexivity|].
  split; [|split; [reflexivity|split; [reflexivity|split; [reflexivity|]]]].
  - unfold server_events. rewrite !packed_app, packed_BT_events.
    reflexivity.
  - intros i k. apply GetBTKeyMap_entries.
Qed.

Lemma C3_server_packs_in_order_witness :
  ∃ l,
    trace (handoff env_ok) = trace world0 ++ l
    ∧ (packed l).*1.*1
      = [ "demoData/cryptocontext.txt"; "demoData/key_pub.txt";
          "demoData/key_mult.txt"; "demoData/key_rot.txt";
          "demoData/key_swkFC.txt"; "demoData/ciphertext.txt";
          "demoData/bincryptocontext.txt"; "demoData/bt_rk.txt";
          "demoData/bt_swk.txt"; "demoData/262144refreshKey.txt";
          "demoData/262144ksKey.txt" ].
Proof.
  destruct (C3_server_packs_in_order env_ok 64 4 15 50 60 25 true world0
              (server_CC env_ok 64 4 15 50 60 25 true, server_KP env_ok, 4)
              (handoff env_ok))
    as (l & E & Hp & _).
  - vm_compute. reflexivity.
  - exists l. split; [exact E|]. rewrite Hp. vm_compute. reflexivity.
Defined.

(** ** How the roles use private keys *)

Lemma serverSetupAndWrite_use env
    ringDim batchSize multDepth scaleModSize firstModSize logQ_LWE oneHot :
  emits (server_setup_use env)
    (serverSetupAndWrite env ringDim batchSize multDepth scaleModSize
       firstModSize logQ_LWE oneHot).
Proof.
  unfold serverSetupAndWrite, server_setup_use. emits_auto. emits_loop.
Qed.

Lemma clientProcess_use env modulus_LWE :
  emits client_use (clientProcess env modulus_LWE).
Proof. unfold clientProcess, client_use. emits_auto. Qed.

Lemma serverVerification_use env cc kp vectorSize :
  emits (verifier_use kp) (serverVerification env cc kp vectorSize).
Proof. unfold serverVerification, verifier_use. emits_auto. Qed.

(** What the setup returns besides the context: the pair it generated and
    the length of the sample vector. *)
Lemma serverSetupAndWrite_returns env
    ringDim batchSize multDepth scaleModSize firstModSize logQ_LWE oneHot
    w r w' :
  serverSetupAndWrite env ringDim batchSize multDepth scaleModSize
    firstModSize logQ_LWE oneHot w = (Done r, w') →
  r.1.2 = server_KP env ∧ r.2 = Z.of_nat (length sample_vector).
Proof.
  intros Hrun. by apply serverSetupAndWrite_Done in Hrun as (_ & -> & _).
Qed.

(** [main]: the events of the three roles, the verifier being given what
    the setup returned. *)
Lemma main_emits env (P : Event → Prop) :
  (∀ s, P (ECout s)) →
  emits P (serverSetupAndWrite env 64 4 (13 + Z.log2 4) 50 60 25 true) →
  emits P (clientProcess env (uint32 (Z.shiftl 1 25))) →
  (∀ cc, emits P (serverVerification env cc (server_KP env)
                    (Z.of_nat (length sample_vector)))) →
  emits P (main env).
Proof.
  intros Hcout Hsetup Hclient Hverify. unfold main. cbv zeta.
  do 2 (apply emits_bind; [emits_auto; apply Hcout | intros ?]).
  eapply (emits_bind_run _
            (λ r, r.1.2 = server_KP env
                  ∧ r.2 = Z.of_nat (length sample_vector))).
  - exact Hsetup.
  - intros w r w'. apply serverSetupAndWrite_returns.
  - intros [[cc kp] vectorSize] [Hkp Hn]. cbn in Hkp, Hn. subst kp vectorSize.
    apply emits_bind; [emits_auto; apply Hcout | intros ?].
    apply emits_bind; [exact Hclient | intros ?].
    apply emits_bind; [emits_auto; apply Hcout | intros ?].
    apply emits_bind; [apply Hverify | intros ?; apply emits_ret].
Qed.

(** ** C4 *)

Lemma elem_of_trace_In (e : Event) l : In e l → e ∈ l.
Proof. apply list_elem_of_In. Qed.

(** C4, as stated, fails: in the run of [main] the server's key pair, and
    with it the secret key, is handed to the scheme-switching key
    generation, which is neither an encryption nor a decryption (the
    encryption is handed the public key). *)
Lemma C4_secret_key_use_counterexample :
  ¬ secret_only_encrypts_decrypts (trace (main env_ok world0).2).
Proof.
  intros H.
  destruct (H (EEvalSchemeSwitchingKeyGen (server_KP env_ok) (LWESK 9%N)))
    as [[]|[]]; [|exact I].
  apply elem_of_trace_In. vm_compute.
  do 15 right. left. reflexivity.
Qed.

(** C4, amended. No call of [Serial] is handed a private key, in any run
    of any role. The only calls that are handed one are local to the
    server: in the setup, the scheme-switching key generation, which is
    given the server's key pair; in the verification, the decryption,
    which is given the secret key of the pair passed in; the client makes
    no such call. In [main], the pair decrypted with is the one the setup
    generated. *)
Theorem C4_secret_key_stays_with_server env :
  (∀ ringDim batchSize multDepth scaleModSize firstModSize logQ_LWE oneHot,
     emits (server_setup_use env)
       (serverSetupAndWrite env ringDim batchSize multDepth scaleModSize
          firstModSize logQ_LWE oneHot))
  ∧ (∀ modulus_LWE, emits client_use (clientProcess env modulus_LWE))
  ∧ (∀ cc kp vectorSize,
       emits (verifier_use kp) (serverVerification env cc kp vectorSize))
  ∧ emits (run_use env) (main env).
Proof.
  split; [intros; apply serverSetupAndWrite_use|].
  split; [intros; apply clientProcess_use|].
  split; [intros; apply serverVerification_use|].
  apply main_emits.
  - done.
  - eapply emits_weaken; [|apply serverSetupAndWrite_use].
    unfold server_setup_use, run_use. intros e [? Hs]. split; [done|].
    intros Hr. left. by apply Hs.
  - eapply emits_weaken; [|apply clientProcess_use].
    unfold client_use, run_use. intros e Hc. split; [|done].
    destruct e; cbn; try done. case_match; try done.
  - intros cc. eapply emits_weaken; [|apply serverVerification_use].
    unfold verifier_use, run_use. intros e (Hp & _ & Hs). split.
    + by destruct e.
    + intros Hr. right. by apply Hs.
Qed.

(** ** C7 *)

(** C7. The verifier unpacks the result ciphertext, decrypts it with the
    secret key of the pair it is given, cuts the decoded plaintext down to
    the length it is given and returns it; it packs nothing and encrypts
    nothing. In [main] the pair is the one the setup generated, not one
    read back, and the length is the one the setup returned: the length
    of the sample vector, whatever the batch size. *)
Theorem C7_verifier_decrypts_and_truncates env cc kp vectorSize w k v :
  secretKey kp = SK k →
  read_blob asCiphertext (DATAFOLDER +:+ cipherArgminLocation) (files w)
  = Some (Enc k v) →
  (0 ≤ vectorSize ≤ Z.of_nat (length v))%Z →
  serverVerification env cc kp vectorSize w
  = (Done (take (Z.to_nat vectorSize) v),
     logs [ EUnpack (DATAFOLDER +:+ cipherArgminLocation) true;
            ECout "Deserialized all data from client on server";
            ECout stars;
            ECout "Part 5: Correctness verification";
            ECout stars;
            EDecrypt (secretKey kp) (Some (Enc k v));
            ESetLength vectorSize ] w)
  ∧ emits (verifier_use kp) (serverVerification env cc kp vectorSize)
  ∧ emits (verifier_inputs env) (main env)
  ∧ (∀ ringDim batchSize multDepth scaleModSize firstModSize logQ_LWE
       oneHot w0 r w1,
       serverSetupAndWrite env ringDim batchSize multDepth scaleModSize
         firstModSize logQ_LWE oneHot w0 = (Done r, w1) →
       r.1.2 = server_KP env ∧ r.2 = Z.of_nat (length sample_vector)).
Proof.
  intros Hkey Hblob Hlen. split; [|split; [|split]].
  - rewrite serverVerification_run, Hblob.
    rewrite (decide_False (P := (vectorSize < 0)%Z)) by lia.
    unfold decrypted.
    rewrite Hkey, decide_True by done. f_equal.
    + f_equal. rewrite resize_le by lia. reflexivity.
    + unfold verify_events. rewrite Hkey. reflexivity.
  - apply serverVerification_use.
  - apply main_emits.
    + done.
    + apply (emits_weaken no_verifier_call); [by intros []|].
      unfold serverSetupAndWrite. emits_auto. emits_loop.
    + apply (emits_weaken no_verifier_call); [by intros []|].
      unfold clientProcess. emits_auto.
    + intros cc0. unfold serverVerification. emits_auto.
  - intros *. apply serverSetupAndWrite_returns.
Qed.

Lemma C7_verifier_decrypts_and_truncates_witness :
  (serverVerification env_ok (server_CC env_ok 64 4 15 50 60 25 true)
     (server_KP env_ok) 4 (returned env_ok)).1
  = Done [1; 0; 0; 0]%Q.
Proof.
  destruct (C7_verifier_decrypts_and_truncates env_ok
              (server_CC env_ok 64 4 15 50 60 25 true) (server_KP env_ok) 4
              (returned env_ok) 7%N [1; 0; 0; 0]%Q) as [-> _].
  - reflexivity.
  - vm_compute. reflexivity.
  - cbn. lia.
  - reflexivity.
Defined.

(** ** C6 *)

(** An event of some kind found after a prefix free of that kind. *)
Lemma lookup_after_prefix (P : Event → bool) pre x post j e :
  Forall (λ e, P e = false) (pre ++ [x]) →
  (pre ++ x :: post) !! j = Some e → P e = true →
  (length pre < j)%nat.
Proof.
  intros HF Hj HP.
  destruct (decide (j < length (pre ++ [x]))%nat) as [Hlt|];
    [|rewrite length_app in *; cbn in *; lia].
  exfalso. rewrite (app_assoc pre [x] post : pre ++ x :: post = _) in Hj.
  rewrite lookup_app_l in Hj by done.
  rewrite Forall_lookup in HF. specialize (HF _ _ Hj). congruence.
Qed.

(** The quotient the client computes, when twice [beta] fits 64 bits and
    the modulus fits 32 bits. *)
Lemma client_pLWE_quotient modulus_LWE beta :
  (0 ≤ modulus_LWE < 2 ^ 32)%Z → (0 < beta < 2 ^ 63)%Z →
  uint32 (modulus_LWE / uint64 (2 * beta)) = modulus_LWE / (2 * beta).
Proof.
  intros Hm Hb. unfold uint32, uint64.
  rewrite (Z.mod_small (2 * beta)) by lia.
  apply Z.mod_small. split.
  - apply Z.div_pos; lia.
  - apply Z.le_lt_trans with modulus_LWE; [|lia].
    apply Z.div_le_upper_bound; nia.
Qed.

(** C6. In a run of the client that returns, the precision handed to the
    one-time precompute step is the integer quotient of the LWE modulus by
    twice the beta parameter of the secondary context it unpacked, and the
    precompute step is called before the argmin evaluation. *)
Theorem C6_client_precision_and_precompute env modulus_LWE w u w' bin :
  clientProcess env modulus_LWE w = (Done u, w') →
  read_blob asBinFHEContext (DATAFOLDER +:+ binccLocation) (files w)
  = Some bin →
  (0 ≤ modulus_LWE < 2 ^ 32)%Z →
  (0 < bin_beta bin < 2 ^ 63)%Z →
  ∃ l i,
    trace w' = trace w ++ l
    ∧ l !! i
      = Some (EEvalCompareSwitchPrecompute
                (modulus_LWE / (2 * bin_beta bin)) 0 512%Q false)
    ∧ (∃ j e, l !! j = Some e ∧ is_argmin e = true)
    ∧ ∀ j e, l !! j = Some e → is_argmin e = true → (i < j)%nat.
Proof.
  intros Hrun Hbin Hm Hbeta.
  apply clientProcess_Done in Hrun as (i & res & Hreads & _ & _ & ->).
  assert (in_binCC i = bin) as Hi.
  { destruct Hreads as (_ & _ & _ & _ & H & _). congruence. }
  exists (client_events env modulus_LWE i res), 31%nat.
  split; [reflexivity|]. split; [|split].
  - cbn. unfold client_pLWE. rewrite Hi.
    by rewrite client_pLWE_quotient.
  - by exists 33%nat, (EEvalMinSchemeSwitching (in_c i) (in_pk i)
                        (GetSlots (in_c i)) (GetSlots (in_c i)) 0 1%Q).
  - intros j e Hj He.
    apply (lookup_after_prefix is_argmin
             (client_prologue ++ client_load_events i)
             (EEvalCompareSwitchPrecompute (client_pLWE modulus_LWE i) 0
                512%Q false)
             (tail (client_eval_events env modulus_LWE i res)) j e);
      [|exact Hj|exact He].
    repeat constructor.
Qed.

Lemma C6_client_precision_and_precompute_witness :
  ∃ l i,
    trace (returned env_ok) = trace (handoff env_ok) ++ l
    ∧ l !! i = Some (EEvalCompareSwitchPrecompute 131072 0 512%Q false)
    ∧ (∃ j e, l !! j = Some e ∧ is_argmin e = true)
    ∧ ∀ j e, l !! j = Some e → is_argmin e = true → (i < j)%nat.
Proof.
  apply (C6_client_precision_and_precompute env_ok 33554432
           (handoff env_ok) tt (returned env_ok)
           (bin_serialized (server_binCC env_ok 25))).
  - vm_compute. reflexivity.
  - vm_compute. reflexivity.
  - lia.
  - cbn. lia.
Defined.

(** ** C5 *)

Lemma elem_of_take_lookup {A} (l : list A) i n x :
  l !! i = Some x → (i < n)%nat → x ∈ take n l.
Proof.
  intros Hi Hn. apply list_elem_of_lookup. exists i.
  by rewrite lookup_take_lt.
Qed.

(** C5, as stated, fails. In the run of [main] in which every blob is
    written and read, the default bundle is loaded after the entry of base
    [1 << 18] has been loaded into the map, not before it: the two halves
    of the claim do not hold together. *)
Lemma C5_default_bundle_counterexample :
  ¬ (default_bundle_from_default_blobs (files (handoff env_ok))
       (trace (returned env_ok))
     ∧ default_bundle_loaded_first (trace (returned env_ok))).
Proof.
  intros [_ (i & k & Hi & Hord)].
  assert (i < 65)%nat as Hlt.
  { apply (Hord 65%nat client_baseG key_a). vm_compute. reflexivity. }
  pose proof (elem_of_take_lookup _ _ _ _ Hi Hlt) as Hin.
  apply list_elem_of_In in Hin.
  assert (forallb (λ e, negb (is_default_load e))
            (take 65 (trace (returned env_ok))) = true)
    as Hnone by (vm_compute; reflexivity).
  rewrite forallb_forall in Hnone. apply Hnone in Hin. discriminate Hin.
Qed.

(** C5, amended. In a run of the client that returns, the refresh key and
    the switching key are unpacked from the dedicated default blobs, and
    the default bootstrapping bundle of the secondary context is loaded
    exactly once: after the entry of base [1 << 18] has been loaded into
    the map, with no entry loaded after it, and before the secondary
    context is attached to the primary one. Which pair that load is
    handed is left open here. *)
Theorem C5_default_bundle_loaded_after_base_entries env modulus_LWE w u w' :
  clientProcess env modulus_LWE w = (Done u, w') →
  ∃ rk0 ks0 pre k post,
    read_blob asRingGSWACCKey (DATAFOLDER +:+ btRkLocation) (files w)
    = Some rk0
    ∧ read_blob asLWESwitchingKey (DATAFOLDER +:+ btSwkLocation) (files w)
      = Some ks0
    ∧ trace w' = trace w ++ pre ++ EBTKeyLoad k :: post
    ∧ EUnpack (DATAFOLDER +:+ btRkLocation) true ∈ pre
    ∧ EUnpack (DATAFOLDER +:+ btSwkLocation) true ∈ pre
    ∧ default_loads pre = []
    ∧ default_loads post = []
    ∧ (map_loads pre).*1 = [client_baseG]
    ∧ map_loads post = []
    ∧ attached_binCC pre = None
    ∧ is_Some (attached_binCC post).
Proof.
  intros Hrun.
  apply clientProcess_Done in Hrun as (i & res & Hreads & _ & _ & ->).
  destruct Hreads as (_ & _ & _ & _ & _ & Hrk0 & Hks0 & _).
  exists (in_rk0 i), (in_ks0 i),
    (take 24 (client_events env modulus_LWE i res)),
    (mkBTKey (in_rk i) (in_ks i)),
    (drop 25 (client_events env modulus_LWE i res)).
  split; [exact Hrk0|]. split; [exact Hks0|].
  split; [reflexivity|].
  split; [apply list_elem_of_In; cbn; tauto|].
  split; [apply list_elem_of_In; cbn; tauto|].
  split; [reflexivity|]. split; [reflexivity|]. split; [reflexivity|].
  split; [reflexivity|]. split; [reflexivity|].
  by eexists.
Qed.

Lemma C5_default_bundle_loaded_after_base_entries_witness :
  ∃ rk0 ks0 pre k post,
    read_blob asRingGSWACCKey (DATAFOLDER +:+ btRkLocation)
      (files (handoff env_ok)) = Some rk0
    ∧ read_blob asLWESwitchingKey (DATAFOLDER +:+ btSwkLocation)
        (files (handoff env_ok)) = Some ks0
    ∧ trace (returned env_ok)
      = trace (handoff env_ok) ++ pre ++ EBTKeyLoad k :: post
    ∧ EUnpack (DATAFOLDER +:+ btRkLocation) true ∈ pre
    ∧ EUnpack (DATAFOLDER +:+ btSwkLocation) true ∈ pre
    ∧ default_loads pre = []
    ∧ default_loads post = []
    ∧ (map_loads pre).*1 = [client_baseG]
    ∧ map_loads post = []
    ∧ attached_binCC pre = None
    ∧ is_Some (attached_binCC post).
Proof.
  apply (C5_default_bundle_loaded_after_base_entries env_ok 33554432
           (handoff env_ok) tt (returned env_ok)).
  vm_compute. reflexivity.
Defined.

(** ** C2 *)

(** C2, as stated, fails. The server's map holds the bases [1 << 18] and
    [1 << 27] and both are written; the map of the secondary context the
    client attaches has no entry for [1 << 27]. *)
Lemma C2_every_base_counterexample :
  ¬ every_base_loaded env_two_bases (trace (returned env_two_bases)).
Proof.
  intros H. destruct (H 134217728%N key_b) as (bin & Hbin & Hb).
  - vm_compute. reflexivity.
  - assert (attached_binCC (trace (returned env_two_bases))
            ≫= (λ bin, bin_BTKeyMap bin !! 134217728%N) = None) as Hnone
      by (vm_compute; reflexivity).
    rewrite Hbin in Hnone. cbn in Hnone. congruence.
Qed.

(** C2, amended. In a run of the client that returns, exactly one pair is
    unpacked and loaded into the map of the secondary context: the pair of
    the blobs of the fixed base [1 << 18], under that base. The map of the
    context attached to the primary one is the unpacked context's map with
    that one entry added; what the server wrote for other bases is not
    read. *)
Theorem C2_client_loads_the_fixed_base env modulus_LWE w u w' :
  clientProcess env modulus_LWE w = (Done u, w') →
  ∃ rk ks bin0 bin l,
    read_blob asRingGSWACCKey (refreshKeyLocation client_baseG) (files w)
    = Some rk
    ∧ read_blob asLWESwitchingKey (ksKeyLocation client_baseG) (files w)
      = Some ks
    ∧ read_blob asBinFHEContext (DATAFOLDER +:+ binccLocation) (files w)
      = Some bin0
    ∧ trace w' = trace w ++ l
    ∧ map_loads l = [(client_baseG, mkBTKey rk ks)]
    ∧ attached_binCC l = Some bin
    ∧ bin_BTKeyMap bin
      = <[client_baseG := mkBTKey rk ks]> (bin_BTKeyMap bin0)
    ∧ Forall (λ e, ∀ path ok,
                e = EUnpack path ok →
                path ∈ [ DATAFOLDER +:+ ccLocation;
                         DATAFOLDER +:+ pubKeyLocation;
                         DATAFOLDER +:+ multKeyLocation;
                         DATAFOLDER +:+ rotKeyLocation;
                         DATAFOLDER +:+ binccLocation;
                         DATAFOLDER +:+ btRkLocation;
                         DATAFOLDER +:+ btSwkLocation;
                         refreshKeyLocation client_baseG;
                         ksKeyLocation client_baseG;
                         DATAFOLDER +:+ FHEWtoCKKSKeyLocation;
                         DATAFOLDER +:+ cipherLocation ]) l.
Proof.
  intros Hrun.
  apply clientProcess_Done in Hrun as (i & res & Hreads & _ & _ & ->).
  destruct Hreads as (_ & _ & _ & _ & Hbin & _ & _ & Hrk & Hks & _).
  exists (in_rk i), (in_ks i), (in_binCC i), (client_binCC i),
    (client_events env modulus_LWE i res).
  do 7 (split; [done|]).
  unfold client_events, client_prologue, client_load_events,
    client_eval_events. cbn [app].
  repeat (constructor; [intros path ok [= <- _] || (intros ? ? [=]) |]);
    try constructor.
  all: set_solver.
Qed.

Lemma C2_client_loads_the_fixed_base_witness :
  ∃ bin,
    attached_binCC (trace (returned env_two_bases)) = Some bin
    ∧ bin_BTKeyMap bin = {[ client_baseG := key_a ]}
    ∧ gen_BTKeyMap env_two_bases
      = <[ 134217728%N := key_b ]> {[ client_baseG := key_a ]}.
Proof.
  destruct (C2_client_loads_the_fixed_base env_two_bases 33554432
              (handoff env_two_bases) tt (returned env_two_bases))
    as (rk & ks & bin0 & bin & l & Hrk & Hks & Hbin0 & E & _ & Hbin & Hmap
        & _).
  - vm_compute. reflexivity.
  - assert (read_blob asRingGSWACCKey (refreshKeyLocation client_baseG)
              (files (handoff env_two_bases)) = Some (BSkey key_a))
      as Hrk' by (vm_compute; reflexivity).
    assert (read_blob asLWESwitchingKey (ksKeyLocation client_baseG)
              (files (handoff env_two_bases)) = Some (KSkey key_a))
      as Hks' by (vm_compute; reflexivity).
    assert (read_blob asBinFHEContext (DATAFOLDER +:+ binccLocation)
              (files (handoff env_two_bases))
            = Some (bin_serialized (server_binCC env_two_bases 25)))
      as Hbin0' by (vm_compute; reflexivity).
    rewrite Hrk' in Hrk. rewrite Hks' in Hks. rewrite Hbin0' in Hbin0.
    injection Hrk as <-. injection Hks as <-. injection Hbin0 as <-.
    exists bin. split; [|split; [|reflexivity]].
    + rewrite E. unfold attached_binCC in *.
      rewrite omap_app, last_app, Hbin. reflexivity.
    + rewrite Hmap. reflexivity.
Defined.

(** ** C1 *)

(** C1 does not hold of the program. When the result ciphertext of the
    client cannot be written, the client prints its success message and
    returns; [main] goes on to the verifier, whose read of the missing blob
    fails in turn without being looked at; no diagnostic is printed and
    [std::exit] is not called: the run ends in the engine's exception on
    the empty ciphertext. And when the blob of the rotation keys is
    missing, the client does exit with status 1, but the diagnostic names
    the blob of the relinearization keys. *)
Theorem C1_failed_transport_is_not_always_fatal :
  after_failure (trace (main env_result_unwritable world0).2)
  = [ ECout "Serialized ciphertext from client";
      ECout stars;
      ECout "Scheme switching Part 4: Server deserialization of data from client. ";
      ECout stars;
      EUnpack (DATAFOLDER +:+ cipherArgminLocation) false;
      ECout "Deserialized all data from client on server";
      ECout stars;
      ECout "Part 5: Correctness verification";
      ECout stars;
      EDecrypt (SK 7%N) None ]
  ∧ diagnostics (trace (main env_result_unwritable world0).2) = []
  ∧ (main env_result_unwritable world0).1
    = Thrown "ciphertext passed to Decrypt is empty"
  ∧ (clientProcess env_ok 33554432 handoff_without_rotation_keys).1
    = Exited 1
  ∧ after_failure
      (trace (clientProcess env_ok 33554432 handoff_without_rotation_keys).2)
    = [ ECerr ("Cannot read serialization from " +:+ DATAFOLDER
               +:+ multKeyLocation);
        EExit 1 ]
  ∧ files handoff_without_rotation_keys !! (DATAFOLDER +:+ multKeyLocation)
    = Some (BlobOf (AEvalMultKeys [EvalKeyOf 7%N 0])).
Proof. repeat split; vm_compute; reflexivity. Qed.

(** ** The names of the blobs *)

Lemma list_ascii_app s1 s2 :
  String.list_ascii_of_string (s1 +:+ s2)
  = String.list_ascii_of_string s1 ++ String.list_ascii_of_string s2.
Proof.
  induction s1 as [|c s1 IH]; [done|].
  change (String c s1 +:+ s2) with (String c (s1 +:+ s2)).
  cbn. by f_equal.
Qed.

Lemma string_app_inv_tail s1 s2 t : s1 +:+ t = s2 +:+ t → s1 = s2.
Proof.
  intros H. apply (f_equal String.list_ascii_of_string) in H.
  rewrite !list_ascii_app in H. apply app_inv_tail in H.
  rewrite <- (String.string_of_list_ascii_of_string s1),
    <- (String.string_of_list_ascii_of_string s2). by rewrite H.
Qed.

Lemma length_list_ascii s :
  length (String.list_ascii_of_string s) = String.length s.
Proof. induction s as [|c s IH]; [done|]. simpl. by rewrite IH. Qed.

Lemma string_length_app s t :
  String.length (s +:+ t) = (String.length s + String.length t)%nat.
Proof. induction s as [|c s IH]; [done|]. simpl. by rewrite IH. Qed.

Lemma char_from_end_app n s t :
  (n < String.length t)%nat →
  char_from_end n (s +:+ t) = char_from_end n t.
Proof.
  intros Hn. unfold char_from_end.
  rewrite list_ascii_app, rev_app_distr. apply lookup_app_l.
  by rewrite length_rev, length_list_ascii.
Qed.

(** The end of a per-base name does not depend on the base. *)
Lemma refreshKeyLocation_end n index :
  (n < 14)%nat →
  char_from_end n (refreshKeyLocation index)
  = char_from_end n "refreshKey.txt".
Proof.
  intros Hn. unfold refreshKeyLocation.
  rewrite (char_from_end_app _ DATAFOLDER), (char_from_end_app _ "/"),
    (char_from_end_app _ (pretty index));
    rewrite ?string_length_app; cbn; try lia.
  done.
Qed.

Lemma ksKeyLocation_end n index :
  (n < 9)%nat →
  char_from_end n (ksKeyLocation index) = char_from_end n "ksKey.txt".
Proof.
  intros Hn. unfold ksKeyLocation.
  rewrite (char_from_end_app _ DATAFOLDER), (char_from_end_app _ "/"),
    (char_from_end_app _ (pretty index));
    rewrite ?string_length_app; cbn; try lia.
  done.
Qed.

(** No fixed name is a per-base name. *)
Lemma fixed_not_refreshKeyLocation path index :
  path ∈ fixed_locations → path ≠ refreshKeyLocation index.
Proof.
  intros Hin ->.
  pose proof (refreshKeyLocation_end 4 index ltac:(lia)) as H.
  revert H. generalize (refreshKeyLocation index) Hin. clear.
  intros p Hin. unfold fixed_locations in Hin.
  repeat (apply elem_of_cons in Hin as [->|Hin]; [by vm_compute|]).
  by apply elem_of_nil in Hin.
Qed.

Lemma fixed_not_ksKeyLocation path index :
  path ∈ fixed_locations → path ≠ ksKeyLocation index.
Proof.
  intros Hin ->.
  pose proof (ksKeyLocation_end 4 index ltac:(lia)) as H.
  revert H. generalize (ksKeyLocation index) Hin. clear.
  intros p Hin. unfold fixed_locations in Hin.
  repeat (apply elem_of_cons in Hin as [->|Hin]; [by vm_compute|]).
  by apply elem_of_nil in Hin.
Qed.

Lemma refreshKeyLocation_not_ksKeyLocation i j :
  refreshKeyLocation i ≠ ksKeyLocation j.
Proof.
  intros E.
  pose proof (refreshKeyLocation_end 7 i ltac:(lia)) as H1.
  pose proof (ksKeyLocation_end 7 j ltac:(lia)) as H2.
  rewrite E, H2 in H1. revert H1. by vm_compute.
Qed.

Global Instance refreshKeyLocation_inj : Inj (=) (=) refreshKeyLocation.
Proof.
  intros i j E. unfold refreshKeyLocation in E.
  apply (inj (String.append DATAFOLDER)), (inj (String.append "/")) in E.
  apply string_app_inv_tail in E. by apply (inj pretty).
Qed.

Global Instance ksKeyLocation_inj : Inj (=) (=) ksKeyLocation.
Proof.
  intros i j E. unfold ksKeyLocation in E.
  apply (inj (String.append DATAFOLDER)), (inj (String.append "/")) in E.
  apply string_app_inv_tail in E. by apply (inj pretty).
Qed.

(** ** The directory the server leaves behind *)

Lemma BT_files_lookup_other entries fs path :
  (∀ e, e ∈ entries →
        path ≠ refreshKeyLocation e.1 ∧ path ≠ ksKeyLocation e.1) →
  BT_files entries fs !! path = fs !! path.
Proof.
  revert fs. induction entries as [|e rest IH]; intros fs H; [done|].
  cbn [BT_files foldl]. fold (BT_files rest (BT_write fs e)).
  rewrite IH by (intros e' He'; apply H; by right).
  destruct (H e) as [H1 H2]; [by left|].
  unfold BT_write. by rewrite !lookup_insert_ne.
Qed.

Lemma BT_files_lookup_fixed entries fs path :
  path ∈ fixed_locations → BT_files entries fs !! path = fs !! path.
Proof.
  intros Hin. apply BT_files_lookup_other. intros e _. split.
  - by apply fixed_not_refreshKeyLocation.
  - by apply fixed_not_ksKeyLocation.
Qed.

Lemma BT_files_lookup_entry entries fs b k :
  NoDup entries.*1 → (b, k) ∈ entries →
  BT_files entries fs !! refreshKeyLocation b
  = Some (BlobOf (ARingGSWACCKey (BSkey k)))
  ∧ BT_files entries fs !! ksKeyLocation b
    = Some (BlobOf (ALWESwitchingKey (KSkey k))).
Proof.
  revert fs. induction entries as [|e rest IH]; intros fs Hnd Hin.
  - by apply elem_of_nil in Hin.
  - cbn [BT_files foldl]. fold (BT_files rest (BT_write fs e)).
    rewrite fmap_cons in Hnd. apply NoDup_cons in Hnd as [Hfresh Hnd].
    apply elem_of_cons in Hin as [<-|Hin]; [|by apply IH].
    cbn [fst] in Hfresh.
    assert (∀ e', e' ∈ rest → b ≠ e'.1) as Hne.
    { intros e' He' ->. apply Hfresh. by apply list_elem_of_fmap_2. }
    rewrite !BT_files_lookup_other.
    + unfold BT_write. cbn [fst snd]. split.
      * rewrite lookup_insert_ne
          by (intros E; symmetry in E;
              by apply refreshKeyLocation_not_ksKeyLocation in E).
        by rewrite lookup_insert_eq.
      * by rewrite lookup_insert_eq.
    + intros e' He'. split.
      * intros E; symmetry in E.
        by apply refreshKeyLocation_not_ksKeyLocation in E.
      * intros E. apply (inj ksKeyLocation) in E. by apply (Hne e').
    + intros e' He'. split.
      * intros E. apply (inj refreshKeyLocation) in E. by apply (Hne e').
      * apply refreshKeyLocation_not_ksKeyLocation.
Qed.

Ltac lookup_fixed :=
  unfold read_blob, server_files;
  rewrite BT_files_lookup_fixed
    by (unfold fixed_locations; apply list_elem_of_In; cbn; tauto);
  repeat (rewrite lookup_insert_ne by (vm_compute; discriminate));
  rewrite lookup_insert_eq; reflexivity.

(** Round trip of the handoff: what the client reads from the directory is
    what the server packed, whatever the directory held before. *)
Lemma server_files_reads env
    ringDim batchSize multDepth scaleModSize firstModSize logQ_LWE oneHot
    multKeys rotKeys fs k :
  gen_BTKeyMap env !! client_baseG = Some k →
  client_reads
    (server_files env ringDim batchSize multDepth scaleModSize firstModSize
       logQ_LWE oneHot multKeys rotKeys fs)
    (handoff_inputs env ringDim batchSize multDepth scaleModSize
       firstModSize logQ_LWE oneHot multKeys rotKeys k).
Proof.
  intros Hk. unfold client_reads, handoff_inputs.
  cbn [in_cc in_pk in_multKeys in_rotKeys in_binCC in_rk0 in_ks0 in_rk in_ks
       in_swk in_c].
  destruct (BT_files_lookup_entry
              (GetBTKeyMap (server_binCC env logQ_LWE))
              (<[DATAFOLDER +:+ btSwkLocation :=
                   BlobOf (ALWESwitchingKey (KSkey (gen_BTKey env)))]>
              (<[DATAFOLDER +:+ btRkLocation :=
                   BlobOf (ARingGSWACCKey (BSkey (gen_BTKey env)))]>
              (<[DATAFOLDER +:+ binccLocation :=
                   BlobOf (ABinFHEContext
                             (bin_serialized (server_binCC env logQ_LWE)))]>
              (<[DATAFOLDER +:+ cipherLocation :=
                   BlobOf (ACiphertext (server_C env batchSize))]>
              (<[DATAFOLDER +:+ FHEWtoCKKSKeyLocation :=
                   BlobOf (ACiphertext (server_swk env))]>
              (<[DATAFOLDER +:+ rotKeyLocation :=
                   BlobOf (AEvalAutomorphismKeys rotKeys)]>
              (<[DATAFOLDER +:+ rotKeyLocation := BlobEmpty]>
              (<[DATAFOLDER +:+ multKeyLocation :=
                   BlobOf (AEvalMultKeys multKeys)]>
              (<[DATAFOLDER +:+ multKeyLocation := BlobEmpty]>
              (<[DATAFOLDER +:+ pubKeyLocation :=
                   BlobOf (APublicKey (publicKey (server_KP env)))]>
              (<[DATAFOLDER +:+ ccLocation :=
                   BlobOf (ACryptoContext
                             (cc_serialized
                                (server_CC env ringDim batchSize multDepth
                                   scaleModSize firstModSize logQ_LWE
                                   oneHot)))]> fs)))))))))))
              client_baseG k) as [Hrk Hks].
  { apply GetBTKeyMap_NoDup. }
  { by apply GetBTKeyMap_entries. }
  split; [lookup_fixed|]. split; [lookup_fixed|]. split; [lookup_fixed|].
  split; [lookup_fixed|]. split; [lookup_fixed|]. split; [lookup_fixed|].
  split; [lookup_fixed|].
  split; [unfold read_blob, server_files; by rewrite Hrk|].
  split; [unfold read_blob, server_files; by rewrite Hks|].
  split; lookup_fixed.
Qed.

(** * Further properties of the program *)

(** ** Stopping at the first failure *)

Lemma fail_fast_base f s :
  is_failure f = true → fail_fast [f; ECerr s; EExit 1].
Proof. intros Hf. exists [], f, s. by repeat split. Qed.

Lemma fail_fast_cons e l :
  is_failure e = false → fail_fast l → fail_fast (e :: l).
Proof.
  intros He (pre & f & s & -> & Hf & Hpre).
  exists (e :: pre), f, s. repeat split; [done|]. by constructor.
Qed.

Lemma fail_fast_app pre l :
  Forall (λ e, is_failure e = false) pre → fail_fast l →
  fail_fast (pre ++ l).
Proof.
  induction 1 as [|e pre He _ IH]; intros Hl; [done|].
  cbn. apply fail_fast_cons; auto.
Qed.

Ltac prove_fail_fast :=
  repeat first
    [ apply fail_fast_base; reflexivity
    | apply fail_fast_cons; [reflexivity|] ].

Lemma wp_Exited_inv {A} (m : M A) w (P : Z → World → Prop) c w' :
  wp m w (λ o w1, ∀ c, o = Exited c → P c w1) →
  m w = (Exited c, w') → P c w'.
Proof. unfold wp. intros H Hrun. rewrite Hrun in H. by apply H. Qed.

Ltac exit_leaf :=
  lazymatch goal with
  | |- ∀ c, Exited _ = Exited c → _ =>
      intros ? [= <-]; split; [reflexivity|];
      eexists; split; [trace_nf; reflexivity|prove_fail_fast]
  | |- ∀ c, _ = Exited c → _ => intros; discriminate
  end.

Lemma serialize_BTKeyMap_Exited env entries w c w' :
  serialize_BTKeyMap env entries w = (Exited c, w') →
  c = 1 ∧ ∃ l, trace w' = trace w ++ l ∧ fail_fast l.
Proof.
  revert w c w'.
  induction entries as [|[index thekey] rest IH]; intros w c w'.
  - intros [=].
  - apply (wp_Exited_inv _ _ (λ c w',
             c = 1 ∧ ∃ l, trace w' = trace w ++ l ∧ fail_fast l)).
    cbn [serialize_BTKeyMap].
    repeat wp_step; wp_reduce; try exit_leaf.
    apply wp_intro. intros o w1 Hrun c1 ->.
    apply IH in Hrun as [-> (added & Eadded & Hl)]. split; [reflexivity|].
    eexists. split.
    + rewrite Eadded. trace_nf. reflexivity.
    + prove_fail_fast. exact Hl.
Qed.

(** The server's setup reads nothing back. *)
Lemma serverSetupAndWrite_never_reads env
    ringDim batchSize multDepth scaleModSize firstModSize logQ_LWE oneHot :
  emits (λ e, is_unpack e = false)
    (serverSetupAndWrite env ringDim batchSize multDepth scaleModSize
       firstModSize logQ_LWE oneHot).
Proof. unfold serverSetupAndWrite. emits_auto. emits_loop. Qed.

Lemma serverSetupAndWrite_Exited env
    ringDim batchSize multDepth scaleModSize firstModSize logQ_LWE oneHot
    w c w' :
  serverSetupAndWrite env ringDim batchSize multDepth scaleModSize
    firstModSize logQ_LWE oneHot w = (Exited c, w') →
  c = 1 ∧ ∃ l, trace w' = trace w ++ l ∧ fail_fast l.
Proof.
  apply (wp_Exited_inv _ _ (λ c w',
           c = 1 ∧ ∃ l, trace w' = trace w ++ l ∧ fail_fast l)).
  unfold serverSetupAndWrite.
  repeat wp_step; wp_reduce; try exit_leaf.
  apply wp_intro. intros o w1 Hrun.
  destruct o as [[]|c1|s].
  - wp_step. intros; discriminate.
  - intros ? [= <-].
    apply serialize_BTKeyMap_Exited in Hrun as [-> (added & Eadded & Hl)].
    split; [reflexivity|]. eexists. split.
    + rewrite Eadded. trace_nf. reflexivity.
    + prove_fail_fast. exact Hl.
  - intros; discriminate.
Qed.

(** X3. Whenever the server's setup exits, the status is 1 and the run
    has stopped at the first failure: every write and every opening of a
    stream before it succeeded, then one failed, one diagnostic was printed
    and the exit followed at once. The setup reads nothing back. *)
Theorem serverSetupAndWrite_stops_at_first_failure env
    ringDim batchSize multDepth scaleModSize firstModSize logQ_LWE oneHot
    w c w' :
  serverSetupAndWrite env ringDim batchSize multDepth scaleModSize
    firstModSize logQ_LWE oneHot w = (Exited c, w') →
  c = 1
  ∧ ∃ l, trace w' = trace w ++ l
         ∧ fail_fast l
         ∧ Forall (λ e, is_unpack e = false) l.
Proof.
  intros Hrun.
  destruct (serverSetupAndWrite_never_reads env ringDim batchSize multDepth
              scaleModSize firstModSize logQ_LWE oneHot w)
    as (l' & E' & Hl').
  rewrite Hrun in E'. cbn [snd] in E'.
  apply serverSetupAndWrite_Exited in Hrun as (-> & l & E & Hl).
  split; [reflexivity|]. exists l. split; [exact E|]. split; [exact Hl|].
  rewrite E in E'. apply app_inv_head in E'. by subst l'.
Qed.

Lemma serverSetupAndWrite_stops_at_first_failure_witness :
  1 = 1
  ∧ ∃ l, trace (main_setup env_ksKey_unwritable world0).2
         = trace world0 ++ l
         ∧ fail_fast l
         ∧ Forall (λ e, is_unpack e = false) l.
Proof.
  apply (serverSetupAndWrite_stops_at_first_failure env_ksKey_unwritable
           64 4 15 50 60 25 true world0 1
           (main_setup env_ksKey_unwritable world0).2).
  vm_compute. reflexivity.
Defined.

Ltac exit_leaf_nopack :=
  lazymatch goal with
  | |- ∀ c, Exited _ = Exited c → _ =>
      intros ? [= <-]; split; [reflexivity|];
      eexists; split; [trace_nf; reflexivity|];
      split; [prove_fail_fast|repeat constructor]
  | |- ∀ c, _ = Exited c → _ => intros; discriminate
  end.

Lemma clientProcess_Exited env modulus_LWE w c w' :
  clientProcess env modulus_LWE w = (Exited c, w') →
  c = 1 ∧ ∃ l, trace w' = trace w ++ l ∧ fail_fast l.
Proof.
  apply (wp_Exited_inv _ _ (λ c w',
           c = 1 ∧ ∃ l, trace w' = trace w ++ l ∧ fail_fast l)).
  unfold clientProcess.
  repeat wp_step; wp_reduce; exit_leaf.
Qed.

(** X4. Whenever the client exits, the status is 1 and the run has
    stopped at the first failure: every read before it succeeded, then one
    failed, one diagnostic was printed and the exit followed at once. A
    client that exits has written nothing. *)
Theorem clientProcess_stops_at_first_failed_read env modulus_LWE w c w' :
  clientProcess env modulus_LWE w = (Exited c, w') →
  c = 1
  ∧ ∃ l, trace w' = trace w ++ l
         ∧ fail_fast l
         ∧ Forall (λ e, is_pack e = false) l.
Proof.
  apply (wp_Exited_inv _ _ (λ c w',
           c = 1 ∧ ∃ l, trace w' = trace w ++ l ∧ fail_fast l
                        ∧ Forall (λ e, is_pack e = false) l)).
  unfold clientProcess.
  repeat wp_step; wp_reduce; exit_leaf_nopack.
Qed.

(** X8. The client never evaluates on a partly rebuilt context: in every
    run, whatever its outcome, if the precomputation or the switching
    argmin was called then every one of the eleven reads had succeeded. *)
Theorem clientProcess_evaluates_only_after_every_read env modulus_LWE w l :
  trace (clientProcess env modulus_LWE w).2 = trace w ++ l →
  existsb is_eval l = true →
  ∃ i, client_reads (files w) i.
Proof.
  intros E. revert l E.
  apply (wp_run (clientProcess env modulus_LWE) w
           (λ _ w', ∀ l, trace w' = trace w ++ l → existsb is_eval l = true →
                         ∃ i, client_reads (files w) i)
           (clientProcess env modulus_LWE w).1
           (clientProcess env modulus_LWE w).2);
    [|by destruct (clientProcess env modulus_LWE w)].
  unfold clientProcess. change (N.shiftl 1 18) with client_baseG.
  repeat wp_step; wp_reduce.
  all: intros added Eadded; revert Eadded; trace_nf;
       intros Eadded%app_inv_head; subst added.
  all: try (intros; discriminate).
  all: intros _; eexists (mkClientInputs _ _ _ _ _ _ _ _ _ _ _).
  all: unfold client_reads;
       cbn [in_cc in_pk in_multKeys in_rotKeys in_binCC in_rk0 in_ks0 in_rk
            in_ks in_swk in_c];
       repeat split; eassumption.
Qed.

(** X5. In every run, whatever its outcome, the client changes no blob
    of the directory but the one of the result ciphertext. *)
Theorem clientProcess_writes_only_the_result env modulus_LWE w path :
  path ≠ DATAFOLDER +:+ cipherArgminLocation →
  files (clientProcess env modulus_LWE w).2 !! path = files w !! path.
Proof.
  intros Hpath.
  apply (wp_run (clientProcess env modulus_LWE) w
           (λ _ w', files w' !! path = files w !! path)
           (clientProcess env modulus_LWE w).1
           (clientProcess env modulus_LWE w).2);
    [|by destruct (clientProcess env modulus_LWE w)].
  unfold clientProcess.
  repeat wp_step; wp_reduce; world_nf;
    try reflexivity; by rewrite lookup_insert_ne.
Qed.

Lemma clientProcess_stops_at_first_failed_read_witness :
  1 = 1
  ∧ ∃ l, trace (clientProcess env_ok 33554432
                  handoff_without_rotation_keys).2
         = trace handoff_without_rotation_keys ++ l
         ∧ fail_fast l
         ∧ Forall (λ e, is_pack e = false) l.
Proof.
  apply (clientProcess_stops_at_first_failed_read env_ok 33554432
           handoff_without_rotation_keys 1
           (clientProcess env_ok 33554432 handoff_without_rotation_keys).2).
  vm_compute. reflexivity.
Defined.

Lemma clientProcess_evaluates_only_after_every_read_witness : ∃ i, client_reads (files (handoff env_ok)) i.
Proof.
  apply (clientProcess_evaluates_only_after_every_read env_ok 33554432
           (handoff env_ok)
           (drop (length (trace (handoff env_ok))) (trace (returned env_ok)))).
  - vm_compute. reflexivity.
  - vm_compute. reflexivity.
Defined.

Lemma clientProcess_writes_only_the_result_witness :
  files (clientProcess env_ok 33554432 (handoff env_ok)).2
    !! (DATAFOLDER +:+ ccLocation)
  = files (handoff env_ok) !! (DATAFOLDER +:+ ccLocation).
Proof.
  apply (clientProcess_writes_only_the_result env_ok 33554432
           (handoff env_ok) (DATAFOLDER +:+ ccLocation)).
  vm_compute. discriminate.
Defined.

(** ** The handoff as a whole *)

Lemma clientProcess_reads_no_exit env modulus_LWE w i :
  client_reads (files w) i →
  ∀ c, (clientProcess env modulus_LWE w).1 ≠ Exited c.
Proof.
  intros (? & ? & ? & ? & ? & ? & ? & ? & ? & ? & ?).
  cut (wp (clientProcess env modulus_LWE) w (λ o _, ∀ c, o ≠ Exited c));
    [done|].
  unfold clientProcess. change (N.shiftl 1 18) with client_baseG.
  repeat wp_step; wp_reduce;
    try match goal with H : _ !! _ = None |- _ =>
      pose proof (read_blob_None asEvalMultKeys _ _ H);
      pose proof (read_blob_None asEvalAutomorphismKeys _ _ H) end;
    try (exfalso; congruence).
  all: intros; discriminate.
Qed.

(** X1. Round trip of the handoff. After a run of the server's setup that
    returns, if its bootstrapping key map holds the base the client knows,
    each of the eleven reads of the client finds under the name it asks for
    the object the server handed to [Serial] under that name (the contexts
    in their serialized form), whatever the directory held before; a client
    run from there does not exit. *)
Theorem client_reads_what_the_server_packed env
    ringDim batchSize multDepth scaleModSize firstModSize logQ_LWE oneHot
    modulus_LWE w r w' k :
  serverSetupAndWrite env ringDim batchSize multDepth scaleModSize
    firstModSize logQ_LWE oneHot w = (Done r, w') →
  gen_BTKeyMap env !! client_baseG = Some k →
  client_reads (files w')
    (handoff_inputs env ringDim batchSize multDepth scaleModSize
       firstModSize logQ_LWE oneHot
       (evalMultKeys w ++ gen_evalMultKeys env)
       (evalAutomorphismKeys w ++ gen_evalAutomorphismKeys env) k)
  ∧ ∀ c, (clientProcess env modulus_LWE w').1 ≠ Exited c.
Proof.
  intros Hrun Hk. apply serverSetupAndWrite_Done in Hrun as (_ & _ & ->).
  assert (client_reads
            (files (server_world env ringDim batchSize multDepth scaleModSize
                      firstModSize logQ_LWE oneHot w))
            (handoff_inputs env ringDim batchSize multDepth scaleModSize
               firstModSize logQ_LWE oneHot
               (evalMultKeys w ++ gen_evalMultKeys env)
               (evalAutomorphismKeys w ++ gen_evalAutomorphismKeys env) k))
    as Hreads.
  { unfold server_world. cbn [files]. apply server_files_reads, Hk. }
  split; [exact Hreads|].
  eapply clientProcess_reads_no_exit, Hreads.
Qed.

Lemma client_reads_what_the_server_packed_witness :
  client_reads (files (handoff env_ok))
    (handoff_inputs env_ok 64 4 15 50 60 25 true
       (evalMultKeys world0 ++ gen_evalMultKeys env_ok)
       (evalAutomorphismKeys world0 ++ gen_evalAutomorphismKeys env_ok) key_a)
  ∧ ∀ c, (clientProcess env_ok 33554432 (handoff env_ok)).1 ≠ Exited c.
Proof.
  apply (client_reads_what_the_server_packed env_ok 64 4 15 50 60 25 true
           33554432 world0
           (server_CC env_ok 64 4 15 50 60 25 true, server_KP env_ok, 4)).
  - vm_compute. reflexivity.
  - vm_compute. reflexivity.
Defined.

(** The blobs of a base the server's map does not hold are those the
    directory held before. *)
Lemma server_files_lookup_absent_base env
    ringDim batchSize multDepth scaleModSize firstModSize logQ_LWE oneHot
    multKeys rotKeys fs b :
  gen_BTKeyMap env !! b = None →
  server_files env ringDim batchSize multDepth scaleModSize firstModSize
    logQ_LWE oneHot multKeys rotKeys fs !! refreshKeyLocation b
  = fs !! refreshKeyLocation b.
Proof.
  intros Hb. unfold server_files.
  rewrite BT_files_lookup_other.
  - repeat (rewrite lookup_insert_ne
              by (apply fixed_not_refreshKeyLocation; unfold fixed_locations;
                  apply list_elem_of_In; cbn; tauto)).
    reflexivity.
  - intros [b' k'] Hin. apply GetBTKeyMap_entries in Hin. cbn in Hin.
    cbn [fst]. split.
    + intros E. apply (inj refreshKeyLocation) in E. congruence.
    + apply refreshKeyLocation_not_ksKeyLocation.
Qed.

Lemma server_files_fixed_reads env
    ringDim batchSize multDepth scaleModSize firstModSize logQ_LWE oneHot
    multKeys rotKeys fs :
  let fs' := server_files env ringDim batchSize multDepth scaleModSize
               firstModSize logQ_LWE oneHot multKeys rotKeys fs in
  read_blob asCryptoContext (DATAFOLDER +:+ ccLocation) fs'
  = Some (cc_serialized
            (server_CC env ringDim batchSize multDepth scaleModSize
               firstModSize logQ_LWE oneHot))
  ∧ read_blob asPublicKey (DATAFOLDER +:+ pubKeyLocation) fs'
    = Some (publicKey (server_KP env))
  ∧ read_blob asEvalMultKeys (DATAFOLDER +:+ multKeyLocation) fs'
    = Some multKeys
  ∧ read_blob asEvalAutomorphismKeys (DATAFOLDER +:+ rotKeyLocation) fs'
    = Some rotKeys
  ∧ read_blob asBinFHEContext (DATAFOLDER +:+ binccLocation) fs'
    = Some (bin_serialized (server_binCC env logQ_LWE))
  ∧ read_blob asRingGSWACCKey (DATAFOLDER +:+ btRkLocation) fs'
    = Some (BSkey (gen_BTKey env))
  ∧ read_blob asLWESwitchingKey (DATAFOLDER +:+ btSwkLocation) fs'
    = Some (KSkey (gen_BTKey env)).
Proof.
  cbv zeta.
  split; [lookup_fixed|]. split; [lookup_fixed|]. split; [lookup_fixed|].
  split; [lookup_fixed|]. split; [lookup_fixed|]. split; lookup_fixed.
Qed.

Lemma app_nil_step {A} (s : list A) : s = [] ++ s.
Proof. reflexivity. Qed.

Lemma app_cons_step {A} (e : A) l p s : l = p ++ s → e :: l = (e :: p) ++ s.
Proof. by intros ->. Qed.

(** The client, the fixed blobs up to the default pair readable and the
    refresh key of its base not. *)
Lemma clientProcess_missing_refreshKey env modulus_LWE w cc pk mk rk bin
    rk0 ks0 :
  read_blob asCryptoContext (DATAFOLDER +:+ ccLocation) (files w) = Some cc →
  read_blob asPublicKey (DATAFOLDER +:+ pubKeyLocation) (files w) = Some pk →
  read_blob asEvalMultKeys (DATAFOLDER +:+ multKeyLocation) (files w)
  = Some mk →
  read_blob asEvalAutomorphismKeys (DATAFOLDER +:+ rotKeyLocation) (files w)
  = Some rk →
  read_blob asBinFHEContext (DATAFOLDER +:+ binccLocation) (files w)
  = Some bin →
  read_blob asRingGSWACCKey (DATAFOLDER +:+ btRkLocation) (files w)
  = Some rk0 →
  read_blob asLWESwitchingKey (DATAFOLDER +:+ btSwkLocation) (files w)
  = Some ks0 →
  read_blob asRingGSWACCKey (refreshKeyLocation client_baseG) (files w)
  = None →
  (clientProcess env modulus_LWE w).1 = Exited 1
  ∧ ∃ pre,
      trace (clientProcess env modulus_LWE w).2
      = trace w ++ pre
        ++ [ EUnpack (refreshKeyLocation client_baseG) false;
             ECerr "Could not deserialize the refresh key";
             EExit 1 ].
Proof.
  intros.
  cut (wp (clientProcess env modulus_LWE) w
         (λ o w', o = Exited 1
                  ∧ ∃ pre, trace w' = trace w ++ pre
                      ++ [ EUnpack (refreshKeyLocation client_baseG) false;
                           ECerr "Could not deserialize the refresh key";
                           EExit 1 ])); [done|].
  unfold clientProcess. change (N.shiftl 1 18) with client_baseG.
  repeat wp_step; wp_reduce;
    try match goal with H : _ !! _ = None |- _ =>
      pose proof (read_blob_None asEvalMultKeys _ _ H);
      pose proof (read_blob_None asEvalAutomorphismKeys _ _ H) end;
    try (exfalso; congruence).
  split; [reflexivity|]. trace_nf. eexists. f_equal.
  repeat first [apply app_nil_step | apply app_cons_step].
Qed.

(** X2. If the server's setup returns but its bootstrapping key map has no
    entry for the base the client knows, and the directory held no blob
    under that base's refresh key name before, the client exits with status
    1: the last three events of its run are the failed read of that blob,
    the diagnostic and the exit. *)
Theorem client_exits_when_its_base_was_not_packed env
    ringDim batchSize multDepth scaleModSize firstModSize logQ_LWE oneHot
    modulus_LWE w r w' :
  serverSetupAndWrite env ringDim batchSize multDepth scaleModSize
    firstModSize logQ_LWE oneHot w = (Done r, w') →
  gen_BTKeyMap env !! client_baseG = None →
  files w !! refreshKeyLocation client_baseG = None →
  (clientProcess env modulus_LWE w').1 = Exited 1
  ∧ ∃ pre,
      trace (clientProcess env modulus_LWE w').2
      = trace w' ++ pre
        ++ [ EUnpack (refreshKeyLocation client_baseG) false;
             ECerr "Could not deserialize the refresh key";
             EExit 1 ].
Proof.
  intros Hrun Hk Hfs. apply serverSetupAndWrite_Done in Hrun as (_ & _ & ->).
  destruct (server_files_fixed_reads env ringDim batchSize multDepth
              scaleModSize firstModSize logQ_LWE oneHot
              (evalMultKeys w ++ gen_evalMultKeys env)
              (evalAutomorphismKeys w ++ gen_evalAutomorphismKeys env)
              (files w))
    as (? & ? & ? & ? & ? & ? & ?).
  eapply clientProcess_missing_refreshKey;
    try (unfold server_world; cbn [files]; eassumption).
  unfold server_world. cbn [files]. apply read_blob_None.
  rewrite server_files_lookup_absent_base by exact Hk. exact Hfs.
Qed.

Lemma client_exits_when_its_base_was_not_packed_witness :
  (clientProcess env_no_client_base 33554432
     (handoff env_no_client_base)).1 = Exited 1
  ∧ ∃ pre,
      trace (clientProcess env_no_client_base 33554432
               (handoff env_no_client_base)).2
      = trace (handoff env_no_client_base) ++ pre
        ++ [ EUnpack (refreshKeyLocation client_baseG) false;
             ECerr "Could not deserialize the refresh key";
             EExit 1 ].
Proof.
  apply (client_exits_when_its_base_was_not_packed env_no_client_base
           64 4 15 50 60 25 true 33554432 world0
           (server_CC env_no_client_base 64 4 15 50 60 25 true,
            server_KP env_no_client_base, 4)).
  - vm_compute. reflexivity.
  - vm_compute. reflexivity.
  - vm_compute. reflexivity.
Defined.

(** X6. After a run of the server's setup that returns, every entry of
    the bootstrapping key map, not only the one the client asks for, can be
    read back from the two blobs named after its base. *)
Theorem every_map_entry_can_be_read_back env
    ringDim batchSize multDepth scaleModSize firstModSize logQ_LWE oneHot
    w r w' b k :
  serverSetupAndWrite env ringDim batchSize multDepth scaleModSize
    firstModSize logQ_LWE oneHot w = (Done r, w') →
  gen_BTKeyMap env !! b = Some k →
  base_pair (files w') b = Some k.
Proof.
  intros Hrun Hk. apply serverSetupAndWrite_Done in Hrun as (_ & _ & ->).
  unfold server_world. cbn [files]. unfold server_files.
  match goal with
  | |- base_pair (BT_files ?entries ?fs) _ = _ =>
      destruct (BT_files_lookup_entry entries fs b k) as [Hrk Hks]
  end.
  { apply GetBTKeyMap_NoDup. }
  { by apply GetBTKeyMap_entries. }
  unfold base_pair, read_blob. rewrite Hrk, Hks. by destruct k.
Qed.

Lemma every_map_entry_can_be_read_back_witness :
  base_pair (files (handoff env_two_bases)) 134217728%N = Some key_b.
Proof.
  apply (every_map_entry_can_be_read_back env_two_bases
           64 4 15 50 60 25 true world0
           (server_CC env_two_bases 64 4 15 50 60 25 true,
            server_KP env_two_bases, 4)).
  - vm_compute. reflexivity.
  - vm_compute. reflexivity.
Defined.

(** X7. The names of the blobs do not collide: the fixed names differ
    from one another, the name of a refresh key and the name of a switching
    key determine their base, no refresh key name is a switching key name,
    and no fixed name is the name of a blob of some base. *)
Theorem blob_names_do_not_collide :
  NoDup fixed_locations
  ∧ Inj (=) (=) refreshKeyLocation
  ∧ Inj (=) (=) ksKeyLocation
  ∧ (∀ i j, refreshKeyLocation i ≠ ksKeyLocation j)
  ∧ Forall (λ path, ∀ i, path ≠ refreshKeyLocation i
                         ∧ path ≠ ksKeyLocation i) fixed_locations.
Proof.
  split; [|split; [|split; [|split]]].
  - apply (bool_decide_eq_true_1 (NoDup fixed_locations)).
    vm_compute. reflexivity.
  - apply refreshKeyLocation_inj.
  - apply ksKeyLocation_inj.
  - apply refreshKeyLocation_not_ksKeyLocation.
  - apply Forall_forall. intros path Hin i. split.
    + by apply fixed_not_refreshKeyLocation.
    + by apply fixed_not_ksKeyLocation.
Qed.

(** ** The loop of the client over its bases *)

Lemma base_pair_Some fs b k :
  base_pair fs b = Some k →
  read_blob asRingGSWACCKey (refreshKeyLocation b) fs = Some (BSkey k)
  ∧ read_blob asLWESwitchingKey (ksKeyLocation b) fs = Some (KSkey k).
Proof.
  unfold base_pair.
  destruct (read_blob asRingGSWACCKey _ fs) as [rk|]; [|done].
  destruct (read_blob asLWESwitchingKey _ fs) as [ks|]; [|done].
  cbn. by intros [= <-].
Qed.

(** X9. The loop of the client, for any list of bases whose blobs can all
    be read: it returns without changing the directory; the bootstrapping
    key map then holds, for each base of the list, the pair read from that
    base's blobs, and is unchanged elsewhere, so that the order of the list
    does not matter for the map; the variables [refreshKey] and [ksKey]
    hold the pair of the last base of the list, or what they held before
    when the list is empty. *)
Theorem load_BTKeyMap_loads_every_base baseGlist refreshKey ksKey clientBinCC
    w :
  Forall (λ baseG, is_Some (base_pair (files w) baseG)) baseGlist →
  ∃ refreshKey' ksKey' clientBinCC' w',
    load_BTKeyMap baseGlist refreshKey ksKey clientBinCC w
    = (Done (refreshKey', ksKey', clientBinCC'), w')
    ∧ files w' = files w
    ∧ (∀ baseG,
         bin_BTKeyMap clientBinCC' !! baseG
         = if decide (baseG ∈ baseGlist) then base_pair (files w) baseG
           else bin_BTKeyMap clientBinCC !! baseG)
    ∧ mkBTKey refreshKey' ksKey'
      = default (mkBTKey refreshKey ksKey)
          (last baseGlist ≫= base_pair (files w)).
Proof.
  revert refreshKey ksKey clientBinCC w.
  induction baseGlist as [|b rest IH];
    intros refreshKey ksKey clientBinCC w Hall.
  - exists refreshKey, ksKey, clientBinCC, w. repeat split.
  - apply Forall_cons in Hall as [[k Hk] Hrest].
    destruct (base_pair_Some _ _ _ Hk) as [Hrk Hks].
    cut (wp (load_BTKeyMap (b :: rest) refreshKey ksKey clientBinCC) w
           (λ o w', ∃ refreshKey' ksKey' clientBinCC',
              o = Done (refreshKey', ksKey', clientBinCC')
              ∧ files w' = files w
              ∧ (∀ baseG,
                   bin_BTKeyMap clientBinCC' !! baseG
                   = if decide (baseG ∈ b :: rest)
                     then base_pair (files w) baseG
                     else bin_BTKeyMap clientBinCC !! baseG)
              ∧ mkBTKey refreshKey' ksKey'
                = default (mkBTKey refreshKey ksKey)
                    (last (b :: rest) ≫= base_pair (files w)))).
    { unfold wp.
      destruct (load_BTKeyMap (b :: rest) refreshKey ksKey clientBinCC w)
        as [o w'].
      cbn [fst snd]. intros (rk' & ks' & bin' & -> & H).
      by exists rk', ks', bin', w'. }
    cbn [load_BTKeyMap].
    repeat wp_step; wp_reduce; try (exfalso; congruence).
    simplify_eq. apply wp_intro. intros o w1 Hrun.
    match type of Hrun with
    | load_BTKeyMap rest ?rk ?ks ?bin ?w0 = _ =>
        destruct (IH rk ks bin w0) as (rk' & ks' & bin' & w2 & E & Hf & Hm & Hl)
    end.
    { exact Hrest. }
    rewrite E in Hrun. injection Hrun as <- <-.
    cbn [files log] in Hf, Hm, Hl.
    exists rk', ks', bin'. split; [reflexivity|]. split; [exact Hf|].
    split.
    + intros baseG. rewrite Hm. cbn [bin_BTKeyMap].
      destruct (decide (baseG = b)) as [->|Hne].
      * rewrite (decide_True (P := b ∈ b :: rest)) by (apply elem_of_cons; by left).
        destruct (decide (b ∈ rest)); [reflexivity|].
        rewrite lookup_insert_eq, Hk. by destruct k.
      * rewrite lookup_insert_ne by done.
        destruct (decide (baseG ∈ rest)) as [Hin|Hnin].
        -- by rewrite decide_True by (apply elem_of_cons; by right).
        -- rewrite decide_False; [reflexivity|].
           intros [?|?]%elem_of_cons; done.
    + rewrite Hl. destruct rest as [|b' rest'].
      * cbn. rewrite Hk. cbn. by destruct k.
      * change (last (b :: b' :: rest')) with (last (b' :: rest')).
        destruct (last (b' :: rest')) as [bl|] eqn:El.
        -- apply last_Some_elem_of in El.
           rewrite Forall_forall in Hrest.
           destruct (Hrest bl El) as [kl Hkl]. cbn. by rewrite Hkl.
        -- by apply last_None in El.
Qed.

Lemma load_BTKeyMap_loads_every_base_witness :
  ∃ refreshKey' ksKey' clientBinCC' w',
    load_BTKeyMap [client_baseG; 134217728%N] (ACCKey 1%N) (LWESwk 2%N)
      (bin_serialized (server_binCC env_two_bases 25))
      (handoff env_two_bases)
    = (Done (refreshKey', ksKey', clientBinCC'), w')
    ∧ files w' = files (handoff env_two_bases)
    ∧ (∀ baseG,
         bin_BTKeyMap clientBinCC' !! baseG
         = if decide (baseG ∈ [client_baseG; 134217728%N])
           then base_pair (files (handoff env_two_bases)) baseG
           else bin_BTKeyMap
                  (bin_serialized (server_binCC env_two_bases 25)) !! baseG)
    ∧ mkBTKey refreshKey' ksKey'
      = default (mkBTKey (ACCKey 1%N) (LWESwk 2%N))
          (last [client_baseG; 134217728%N]
           ≫= base_pair (files (handoff env_two_bases))).
Proof.
  apply (load_BTKeyMap_loads_every_base [client_baseG; 134217728%N]
           (ACCKey 1%N) (LWESwk 2%N)
           (bin_serialized (server_binCC env_two_bases 25))
           (handoff env_two_bases)).
  constructor; [exists key_a; vm_compute; reflexivity|].
  constructor; [exists key_b; vm_compute; reflexivity|].
  constructor.
Defined.

(** ** The verifier *)



(** ** What the server's setup leaves alone *)

Lemma serialize_BTKeyMap_frame env entries w path :
  (∀ b, path ≠ refreshKeyLocation b ∧ path ≠ ksKeyLocation b) →
  files (serialize_BTKeyMap env entries w).2 !! path = files w !! path.
Proof.
  intros Hpath. revert w.
  induction entries as [|[index thekey] rest IH]; intros w; [reflexivity|].
  destruct (Hpath index) as [Hrk Hks].
  apply (wp_run (serialize_BTKeyMap env ((index, thekey) :: rest)) w
           (λ _ w', files w' !! path = files w !! path)
           (serialize_BTKeyMap env ((index, thekey) :: rest) w).1
           (serialize_BTKeyMap env ((index, thekey) :: rest) w).2);
    [|by destruct (serialize_BTKeyMap env ((index, thekey) :: rest) w)].
  cbn [serialize_BTKeyMap].
  repeat wp_step; wp_reduce; world_nf;
    rewrite ?lookup_insert_ne by done; try reflexivity.
  apply wp_intro. intros o w1 Hrun.
  apply (f_equal snd) in Hrun. cbn [snd] in Hrun. rewrite <- Hrun, IH.
  world_nf. by rewrite !lookup_insert_ne by done.
Qed.

(** X11. In every run, whatever its outcome, the server's setup changes
    no blob but those under its nine fixed names and under the names of the
    blobs of a base; in particular it leaves a result ciphertext alone. *)
Theorem serverSetupAndWrite_writes_only_its_blobs env
    ringDim batchSize multDepth scaleModSize firstModSize logQ_LWE oneHot
    w path :
  path ∉ server_locations →
  (∀ b, path ≠ refreshKeyLocation b ∧ path ≠ ksKeyLocation b) →
  files (serverSetupAndWrite env ringDim batchSize multDepth scaleModSize
           firstModSize logQ_LWE oneHot w).2 !! path
  = files w !! path.
Proof.
  intros Hfixed Hbase.
  assert (∀ p, In p server_locations → p ≠ path) as Hne.
  { intros p Hp ->. apply Hfixed. by apply list_elem_of_In. }
  match goal with
  | |- files (?m w).2 !! _ = _ =>
      apply (wp_run m w (λ _ w', files w' !! path = files w !! path)
               (m w).1 (m w).2); [|by destruct (m w)]
  end.
  unfold serverSetupAndWrite.
  repeat wp_step; wp_reduce; world_nf;
    rewrite ?lookup_insert_ne by (apply Hne; cbn; tauto); try reflexivity.
  apply wp_intro. intros o w1 Hrun.
  assert (files w1 !! path = files w !! path) as Hw1.
  { apply (f_equal snd) in Hrun. cbn [snd] in Hrun.
    rewrite <- Hrun, serialize_BTKeyMap_frame by exact Hbase.
    world_nf. by rewrite !lookup_insert_ne by (apply Hne; cbn; tauto). }
  destruct o; [|exact Hw1..].
  wp_step. exact Hw1.
Qed.

Lemma serverSetupAndWrite_writes_only_its_blobs_witness :
  files (serverSetupAndWrite env_ok 64 4 15 50 60 25 true (returned env_ok)).2
    !! (DATAFOLDER +:+ cipherArgminLocation)
  = files (returned env_ok) !! (DATAFOLDER +:+ cipherArgminLocation).
Proof.
  apply (serverSetupAndWrite_writes_only_its_blobs env_ok 64 4 15 50 60 25
           true (returned env_ok) (DATAFOLDER +:+ cipherArgminLocation)).
  - apply (bool_decide_eq_true_1
             ((DATAFOLDER +:+ cipherArgminLocation) ∉ server_locations)).
    vm_compute. reflexivity.
  - intros b. split.
    + apply fixed_not_refreshKeyLocation. unfold fixed_locations.
      apply list_elem_of_In. cbn. tauto.
    + apply fixed_not_ksKeyLocation. unfold fixed_locations.
      apply list_elem_of_In. cbn. tauto.
Defined.

(** ** The three roles in [main] *)

Lemma BT_events_no_failure entries :
  Forall (λ e, is_failure e = false) (flat_map BT_events entries).
Proof.
  induction entries as [|e rest IH]; [constructor|].
  cbn [flat_map]. apply Forall_app. split; [|exact IH].
  unfold BT_events. repeat constructor.
Qed.

(** X12. The outcomes of [main]. If it exits, the status is 1 and the
    whole run, setup and client together, has stopped at the first failed
    call: everything before succeeded, one diagnostic was printed and the
    exit followed at once. If it returns a plaintext, the plaintext has as
    many slots as the sample vector, whatever the engine and the directory
    did. *)
Theorem main_outcomes env w :
  (∀ c, (main env w).1 = Exited c →
        c = 1 ∧ ∃ l, trace (main env w).2 = trace w ++ l ∧ fail_fast l)
  ∧ (∀ p, (main env w).1 = Done p → length p = length sample_vector).
Proof.
  cut (wp (main env) w
         (λ o w',
            (∀ c, o = Exited c →
                  c = 1 ∧ ∃ l, trace w' = trace w ++ l ∧ fail_fast l)
            ∧ (∀ p, o = Done p → length p = length sample_vector)));
    [done|].
  unfold main. repeat wp_step.
  apply wp_intro. intros o w1 Hrun. destruct o as [[[cc kp] n]|c1|s].
  - pose proof Hrun as Hret. apply serverSetupAndWrite_returns in Hret as [_ Hn].
    cbn [snd] in Hn. subst n.
    apply serverSetupAndWrite_Done in Hrun as (_ & _ & ->).
    repeat wp_step.
    apply wp_intro. intros o2 w2 Hrun2. destruct o2 as [[]|c2|s2].
    + repeat wp_step.
      apply wp_intro. intros o3 w3 Hrun3.
      rewrite serverVerification_run in Hrun3.
      destruct (read_blob asCiphertext _ _);
        rewrite ?(decide_False (P := (Z.of_nat (length sample_vector) < 0)%Z))
          in Hrun3 by lia;
        apply (f_equal fst) in Hrun3; cbn [fst] in Hrun3; subst o3.
      * wp_step. split; [intros; discriminate|].
        intros p [= <-]. rewrite length_resize. apply Nat2Z.id.
      * split; intros; discriminate.
    + split; [|intros; discriminate]. intros ? [= <-].
      apply clientProcess_Exited in Hrun2 as (-> & added & Eadded & Hl).
      split; [reflexivity|].
      eexists. split.
      * rewrite Eadded. unfold server_world. trace_nf. reflexivity.
      * prove_fail_fast. apply fail_fast_app;
          [apply BT_events_no_failure|].
        prove_fail_fast. exact Hl.
    + split; intros; discriminate.
  - split; [|intros; discriminate]. intros ? [= <-].
    apply serverSetupAndWrite_Exited in Hrun as (-> & added & Eadded & Hl).
    split; [reflexivity|]. eexists. split.
    + rewrite Eadded. trace_nf. reflexivity.
    + prove_fail_fast. exact Hl.
  - split; intros; discriminate.
Qed.

Lemma main_outcomes_witness :
  length ([1; 0; 0; 0]%Q : Plaintext) = length sample_vector.
Proof.
  apply (proj2 (main_outcomes env_ok world0)).
  vm_compute. reflexivity.
Defined.
